(** * Crawlr: a shallow embedding of [agent.py]

    The script is a thin orchestration layer: a web-search tool
    ([SearchTool._run]), a model provider ([set_llm]), the crew builder
    ([form_crew]), the interactive runner ([main]) and the start-up guard
    under [if __name__ == "__main__"].

    Third-party behaviour (the Tavily client, the constructors of the
    libraries' objects, the crew's [kickoff], Python's [repr] of containers)
    is not part of the script; it is collected in the record [World] and
    every statement is universal over it.

    Conventions.
    - A Python [str] is a Rocq [string]: the UTF-8 bytes of the text, so the
      emoji of the messages are kept as they are in the source file.
      [strip] removes the characters of [str.isspace], all of Unicode's,
      read from their encodings.  [lower] maps the ASCII letters, which is
      all the exit test can tell: no other character lower-cases to a letter
      of [exit] or [quit] (the Kelvin sign gives [k], and the dotted capital
      I gives [i] followed by a combining dot).
    - [Optional[str]] is [option string]; truthiness is [truthy].
    - A computation that prints, calls a service or raises is a value of
      [M A]: the trace of effects performed, and how it ended. *)

From Stdlib Require Import ZArith QArith String Ascii List DecimalString.
From stdpp Require Import base gmap strings list.
Import ListNotations.

Set Warnings "-register-all".
Local Open Scope string_scope.
Local Open Scope list_scope.

(** ** Strings *)

(** The line feed of the source's ["\n"]. *)
Definition LF : string := String "010" "".

(** A character of a [str], given by the bytes of its UTF-8 encoding. *)
Definition utf8 (bytes : list nat) : string :=
  string_of_list_ascii (ascii_of_nat <$> bytes).

(** The characters for which [str.isspace] holds: TAB, LF, VT, FF, CR, the
    separators FS GS RS US and the space; then U+0085 and U+00A0, U+1680,
    U+2000 to U+200A, U+2028, U+2029, U+202F, U+205F and U+3000. *)
Definition whitespace : list string :=
  [utf8 [9]; utf8 [10]; utf8 [11]; utf8 [12]; utf8 [13];
   utf8 [28]; utf8 [29]; utf8 [30]; utf8 [31]; utf8 [32];
   utf8 [194; 133]; utf8 [194; 160];
   utf8 [225; 154; 128];
   utf8 [226; 128; 128]; utf8 [226; 128; 129]; utf8 [226; 128; 130];
   utf8 [226; 128; 131]; utf8 [226; 128; 132]; utf8 [226; 128; 133];
   utf8 [226; 128; 134]; utf8 [226; 128; 135]; utf8 [226; 128; 136];
   utf8 [226; 128; 137]; utf8 [226; 128; 138];
   utf8 [226; 128; 168]; utf8 [226; 128; 169]; utf8 [226; 128; 175];
   utf8 [226; 129; 159];
   utf8 [227; 128; 128]].

(** [ch.isspace()] for a single character [ch]. *)
Definition isspace (ch : string) : bool := bool_decide (ch ∈ whitespace).

(** [s.lstrip()]: a white-space character takes one, two or three bytes. *)
Fixpoint lstrip (s : string) : string :=
  match s with
  | String b1 s1 =>
      if isspace (String b1 "") then lstrip s1 else
      match s1 with
      | String b2 s2 =>
          if isspace (String b1 (String b2 "")) then lstrip s2 else
          match s2 with
          | String b3 s3 =>
              if isspace (String b1 (String b2 (String b3 ""))) then lstrip s3
              else s
          | EmptyString => s
          end
      | EmptyString => s
      end
  | EmptyString => EmptyString
  end.

(** A line is blank when it is empty or holds white space only. *)
Fixpoint is_blank (s : string) : bool :=
  match s with
  | String b1 s1 =>
      if isspace (String b1 "") then is_blank s1 else
      match s1 with
      | String b2 s2 =>
          if isspace (String b1 (String b2 "")) then is_blank s2 else
          match s2 with
          | String b3 s3 =>
              isspace (String b1 (String b2 (String b3 ""))) && is_blank s3
          | EmptyString => false
          end
      | EmptyString => false
      end
  | EmptyString => true
  end.

(** [s.rstrip()]: the text is cut where what remains is white space only. *)
Fixpoint rstrip (s : string) : string :=
  match s with
  | String b s' => if is_blank s then EmptyString else String b (rstrip s')
  | EmptyString => EmptyString
  end.

(** [s.strip()] *)
Definition strip (s : string) : string := rstrip (lstrip s).

Definition lower_char (c : ascii) : ascii :=
  let n := nat_of_ascii c in
  if ((65 <=? n)%nat && (n <=? 90)%nat) then ascii_of_nat (n + 32) else c.

(** [s.lower()], on the ASCII letters. *)
Fixpoint lower (s : string) : string :=
  match s with
  | String c s' => String (lower_char c) (lower s')
  | EmptyString => EmptyString
  end.

(** [sub in s] *)
Definition contains (sub s : string) : Prop :=
  ∃ pre post, s = pre +:+ sub +:+ post.

(** [str(n)] for an [int]. *)
Definition str_int (z : Z) : string := NilZero.string_of_int (Z.to_int z).

(** ** Exceptions *)

(** The classes the script can meet.  [KeyboardInterrupt], [SystemExit] and
    the like derive from [BaseException] only; all the others derive from
    [Exception]. *)
Inductive exn_class :=
| ValueError
| KeyError
| TypeError
| AttributeError
| EOFError
| OtherException (name : string)
| KeyboardInterrupt
| SystemExit
| OtherBaseException (name : string).

(** [isinstance(e, Exception)] *)
Definition is_Exception (c : exn_class) : bool :=
  match c with
  | KeyboardInterrupt | SystemExit | OtherBaseException _ => false
  | _ => true
  end.

(** [isinstance(e, KeyboardInterrupt)] *)
Definition is_KeyboardInterrupt (c : exn_class) : bool :=
  match c with
  | KeyboardInterrupt => true
  | _ => false
  end.

(** An exception object: its class and [str(e)]. *)
Record exn := Exn { exn_cls : exn_class; exn_str : string }.

Inductive outcome (A : Type) :=
| Ret (a : A)
| Raise (e : exn).
Arguments Ret {A} a.
Arguments Raise {A} e.

(** ** Python values of a decoded JSON response *)

(** A float is carried by its printed form. *)
Inductive pyval :=
| PyNone
| PyBool (b : bool)
| PyInt (z : Z)
| PyFloat (printed : string)
| PyStr (s : string)
| PyList (l : list pyval)
| PyDict (d : gmap string pyval).

Definition type_name (v : pyval) : string :=
  match v with
  | PyNone => "NoneType"
  | PyBool _ => "bool"
  | PyInt _ => "int"
  | PyFloat _ => "float"
  | PyStr _ => "str"
  | PyList _ => "list"
  | PyDict _ => "dict"
  end.

(** [KeyError(key)]: its [str] is the [repr] of the key, which for the keys
    of the script is the key between single quotes. *)
Definition KeyError_of (key : string) : exn := Exn KeyError ("'" +:+ key +:+ "'").

(** [v[key]] with a string key (messages of CPython 3.11). *)
Definition getitem (v : pyval) (key : string) : outcome pyval :=
  match v with
  | PyDict d =>
      match d !! key with
      | Some x => Ret x
      | None => Raise (KeyError_of key)
      end
  | PyList _ => Raise (Exn TypeError "list indices must be integers or slices, not str")
  | PyStr _ => Raise (Exn TypeError "string indices must be integers, not 'str'")
  | _ => Raise (Exn TypeError ("'" +:+ type_name v +:+ "' object is not subscriptable"))
  end.

(** The items that [enumerate(v[:3])] goes through.  A string slices to a
    string, whose items are its characters. *)
Definition slice3 (v : pyval) : outcome (list pyval) :=
  match v with
  | PyList l => Ret (take 3 l)
  | PyStr s => Ret ((λ c, PyStr (String c "")) <$> take 3 (list_ascii_of_string s))
  | PyDict _ => Raise (Exn TypeError "unhashable type: 'slice'")
  | _ => Raise (Exn TypeError ("'" +:+ type_name v +:+ "' object is not subscriptable"))
  end.

(** [v.get(key, default)] *)
Definition get (v : pyval) (key : string) (dflt : pyval) : outcome pyval :=
  match v with
  | PyDict d => Ret (default dflt (d !! key))
  | _ =>
      Raise (Exn AttributeError
               ("'" +:+ type_name v +:+ "' object has no attribute 'get'"))
  end.

(** [not v] for an [Optional[str]]: [None] and the empty string are falsy. *)
Definition truthy (v : option string) : bool :=
  match v with
  | Some s => negb (String.eqb s "")
  | None => false
  end.

(** ** Configuration objects of the third-party libraries *)

(** The keyword arguments of [tav.search(...)]. *)
Record SearchRequest := {
  sr_query : string;
  sr_include_answers : bool;
  sr_max_results : Z;
  sr_search_depth : string
}.

(** A [TavilyClient] instance: what its [search] method answers. *)
Record TavClient := { search : SearchRequest → outcome pyval }.

(** An object of one of the libraries is known here by the keyword
    arguments of the call that builds it; whether the call succeeds, and
    what the library makes of the arguments, is the library's. *)

(** A [BaseTool] as the agent sees it. *)
Record Tool := { tool_name : string; tool_description : string }.

Record ChatOpenAI := {
  model : string;
  api_key : string;
  base_url : string;
  temperature : Q;
  max_tokens : Z
}.

Record Agent := {
  role : string;
  goal : string;
  backstory : string;
  tools : list Tool;
  llm : ChatOpenAI;
  agent_verbose : bool;
  max_iter : Z
}.

Record Task := {
  description : string;
  expected_output : string;
  agent : Agent;
  output_file : string
}.

Record Crew := {
  agents : list Agent;
  tasks : list Task;
  crew_verbose : bool;
  process : string
}.

(** A call of a constructor in [set_llm] or [form_crew]. *)
Inductive construction :=
| NewChatOpenAI (args : ChatOpenAI)
| NewSearchTool
| NewAgent (args : Agent)
| NewTask (args : Task)
| NewCrew (args : Crew).

(** What lies outside the script.
    - [TavilyClient key] is the constructor call [TavilyClient(api_key=key)];
    - [construct n call] is how a constructor call made at the [n]-th turn
      of the runner's loop ends: it returns, or it raises;
    - [kickoff n crew] is [str] of what [crew.kickoff()] returns, or what it
      raises, at the [n]-th turn;
    - [repr] is Python's [repr], used to print lists and dicts. *)
Record World := {
  TavilyClient : option string → outcome TavClient;
  construct : nat → construction → outcome unit;
  kickoff : nat → Crew → outcome string;
  repr : pyval → string
}.

(** [str(v)], which is also how an f-string renders [{v}]. *)
Definition py_str (W : World) (v : pyval) : string :=
  match v with
  | PyNone => "None"
  | PyBool true => "True"
  | PyBool false => "False"
  | PyInt z => str_int z
  | PyFloat p => p
  | PyStr s => s
  | PyList _ | PyDict _ => repr W v
  end.

(** ** Effects *)

(** What the script does to the outside: [print(s)], [input(prompt)], a
    search request sent by a Tavily client, a crew started at turn [n]. *)
Inductive event :=
| EvPrint (s : string)
| EvInput (prompt : string)
| EvSearch (req : SearchRequest)
| EvKickoff (n : nat) (crew : Crew).

(** A computation: the effects it performed, in order, and its end. *)
Definition M (A : Type) : Type := (list event * outcome A)%type.

#[export] Instance outcome_ret : MRet outcome := λ A a, Ret a.
#[export] Instance outcome_bind : MBind outcome := λ A B f m,
  match m with
  | Ret a => f a
  | Raise e => Raise e
  end.

#[export] Instance M_ret : MRet M := λ A a, ([], Ret a).
#[export] Instance M_bind : MBind M := λ A B f m,
  match m with
  | (t, Ret a) => let '(t', r) := f a in (t ++ t', r)
  | (t, Raise e) => (t, Raise e)
  end.

(** [raise e] *)
Definition raise {A} (e : exn) : M A := ([], Raise e).

(** A step without effect of its own. *)
Definition lift {A} (o : outcome A) : M A := ([], o).

Definition emit (ev : event) : M unit := ([ev], Ret tt).

(** [print(s)] *)
Definition print (s : string) : M unit := emit (EvPrint s).

(** [try: body except C1 as e: h1(e) except C2 as e: h2(e) ...]: the first
    clause whose class test accepts the exception handles it; an exception
    that no clause accepts goes through. *)
Definition try_except {A} (body : M A)
    (clauses : list ((exn_class → bool) * (exn → M A))) : M A :=
  match body with
  | (t, Raise e) =>
      match find (λ cl, fst cl (exn_cls e)) clauses with
      | Some cl => let '(t', r) := snd cl e in (t ++ t', r)
      | None => (t, Raise e)
      end
  | (t, Ret a) => (t, Ret a)
  end.

(** ** Module level: the environment and the two credentials *)

(** [load_dotenv()]: the variables of the [.env] file join the process
    environment; a variable already set keeps its value. *)
Definition load_dotenv (dotenv environ : gmap string string) : gmap string string :=
  environ ∪ dotenv.

(** [os.getenv(name)] *)
Definition getenv (environ : gmap string string) (name : string) : option string :=
  environ !! name.

(** The module globals, read once when the module is loaded. *)
Record Globals := {
  TAVILY_API_KEY : option string;
  GROQ_API_KEY : option string
}.

Definition module_globals (environ : gmap string string) : Globals :=
  {| TAVILY_API_KEY := getenv environ "TAVILY_API_KEY";
     GROQ_API_KEY := getenv environ "GROQ_API_KEY" |}.

(** ** Web search tool *)

Module SearchTool.

Definition name : string := "Web Search Tool".
Definition description : string :=
  "Searches the web for recent and relevant information.".

(** [SearchTool()] *)
Definition new : Tool := {| tool_name := name; tool_description := description |}.

(** The request of lines 25-30. *)
Definition request (query : string) : SearchRequest :=
  {| sr_query := query;
     sr_include_answers := true;
     sr_max_results := 5;
     sr_search_depth := "advanced" |}.

(** [f"{i+1}. {item['title']}\n   {item['url']}"] *)
Definition link (W : World) (i : nat) (item : pyval) : outcome string :=
  title ← getitem item "title";
  url ← getitem item "url";
  mret (str_int (Z.of_nat i + 1) +:+ ". " +:+ py_str W title +:+ LF
          +:+ "   " +:+ py_str W url).

(** The comprehension over [enumerate(...)], counting from [i]. *)
Fixpoint links_from (W : World) (i : nat) (items : list pyval) : outcome (list string) :=
  match items with
  | [] => mret []
  | item :: items' =>
      l ← link W i item;
      ls ← links_from W (S i) items';
      mret (l :: ls)
  end.

(** [links = [... for i, item in enumerate(result['results'][:3])]] *)
Definition links (W : World) (result : pyval) : outcome (list string) :=
  results ← getitem result "results";
  items ← slice3 results;
  links_from W 0 items.

Definition fallback : string := "I found these resources:".

(** The body of the [try]. *)
Definition _run_try (G : Globals) (W : World) (query : string) : M string :=
  _ ← (if negb (truthy (TAVILY_API_KEY G))
       then raise (Exn ValueError "Tavily API key not found")
       else mret tt);
  tav ← lift (TavilyClient W (TAVILY_API_KEY G));
  _ ← emit (EvSearch (request query));
  result ← lift (search tav (request query));
  links ← lift (links W result);
  answer ← lift (get result "answer" (PyStr fallback));
  mret (py_str W answer +:+ LF +:+ LF +:+ "Top Links:" +:+ LF
          +:+ String.concat (LF +:+ LF) links).

Definition failure_message (e : exn) : string :=
  "⚠️ Search failed. Error: " +:+ exn_str e.

Definition _run (G : Globals) (W : World) (query : string) : M string :=
  try_except (_run_try G W query)
    [(is_Exception, λ e, mret (failure_message e))].

End SearchTool.

(** ** LLM configuration *)

(** [set_llm()], called at turn [n]. *)
Definition set_llm (G : Globals) (W : World) (n : nat) : outcome ChatOpenAI :=
  match GROQ_API_KEY G with
  | Some key =>
      if String.eqb key ""
      then Raise (Exn ValueError "Groq API key not found in environment variables")
      else
        let groq_api_key := strip key in
        let handle :=
          {| model := "groq/llama3-70b-8192";
             api_key := groq_api_key;
             base_url := "https://api.groq.com/openai/v1";
             temperature := 5 # 10;
             max_tokens := 1024 |} in
        _ ← construct W n (NewChatOpenAI handle);
        mret handle
  | None => Raise (Exn ValueError "Groq API key not found in environment variables")
  end.

(** ** Crew setup *)

(** [form_crew(query)], called at turn [n]. *)
Definition form_crew (G : Globals) (W : World) (n : nat) (query : string)
    : outcome Crew :=
  llm ← set_llm G W n;
  _ ← construct W n NewSearchTool;
  let researcher :=
    {| role := "AI Research Specialist";
       goal := "Deliver precise and informative answers with credible sources";
       backstory :=
         "You're an elite researcher who uses advanced tools to find and "
         +:+ "synthesize information from verified web sources.";
       tools := [SearchTool.new];
       llm := llm;
       agent_verbose := true;
       max_iter := 3 |} in
  _ ← construct W n (NewAgent researcher);
  let task :=
    {| description :=
         "Research the topic: '" +:+ query +:+ "'" +:+ LF
         +:+ "Instructions:" +:+ LF
         +:+ "- Only use verified, recent information" +:+ LF
         +:+ "- Present a clear and concise summary" +:+ LF
         +:+ "- Highlight key aspects" +:+ LF
         +:+ "- Provide 3–5 relevant sources with titles and URLs";
       expected_output :=
         "1. Overview of the topic" +:+ LF
         +:+ "2. Key findings" +:+ LF
         +:+ "3. Summary with evidence" +:+ LF
         +:+ "4. 3–5 Reference links with titles";
       agent := researcher;
       output_file := "research_output.md" |} in
  _ ← construct W n (NewTask task);
  let crew :=
    {| agents := [researcher];
       tasks := [task];
       crew_verbose := true;
       process := "sequential" |} in
  _ ← construct W n (NewCrew crew);
  mret crew.

(** ** Main runner *)

Definition banner : string :=
  "🤖 AI Research Assistant (Ctrl+C or 'exit' to stop)" +:+ LF.
Definition prompt : string := "🔎 What would you like to research? ".
Definition researching : string := LF +:+ "🧠 Researching... please wait..." +:+ LF.
Definition result_heading : string := LF +:+ "✅ Research Result:" +:+ LF.
Definition farewell : string := LF +:+ "👋 Exiting...".
Definition error_line (e : exn) : string := LF +:+ "❌ Error: " +:+ exn_str e.

(** [input(prompt)]: the prompt is shown, then the terminal delivers a line
    or raises ([KeyboardInterrupt] on Ctrl+C, [EOFError] at end of input). *)
Definition input (prompt : string) (delivered : outcome string) : M string :=
  _ ← emit (EvInput prompt);
  lift delivered.

(** [crew.kickoff()] at turn [n]. *)
Definition crew_kickoff (W : World) (n : nat) (crew : Crew) : M string :=
  _ ← emit (EvKickoff n crew);
  lift (kickoff W n crew).

(** How one pass through the body of [while True] ends. *)
Inductive control := Break | Continue.

(** Lines 105-110: what follows the exit test. *)
Definition research (G : Globals) (W : World) (n : nat) (query : string) : M control :=
  _ ← print researching;
  crew ← lift (form_crew G W n query);
  result ← crew_kickoff W n crew;
  _ ← print result_heading;
  _ ← print result;
  mret Continue.

(** Lines 101-110: the body of the [try]. *)
Definition loop_body (G : Globals) (W : World) (n : nat)
    (delivered : outcome string) : M control :=
  query ← input prompt delivered;
  if decide (lower (strip query) ∈ ["exit"; "quit"])
  then mret Break
  else research G W n query.

(** Lines 100-116: the [try] with its two [except] clauses. *)
Definition turn (G : Globals) (W : World) (n : nat)
    (delivered : outcome string) : M control :=
  try_except (loop_body G W n delivered)
    [(is_KeyboardInterrupt, λ _, _ ← print farewell; mret Break);
     (is_Exception, λ e, _ ← print (error_line e); mret Continue)].

(** How a run over a finite script of terminal input ends: [main] returned,
    or it waits at the prompt for input that the script does not hold, or an
    exception left it. *)
Inductive status :=
| Returned
| AwaitingInput
| Uncaught (e : exn).

(** [while True], fed with what the terminal delivers at each prompt. *)
Fixpoint main_loop (G : Globals) (W : World) (n : nat)
    (stdin : list (outcome string)) : list event * status :=
  match stdin with
  | [] => ([EvInput prompt], AwaitingInput)
  | delivered :: stdin' =>
      match turn G W n delivered with
      | (t, Ret Break) => (t, Returned)
      | (t, Ret Continue) =>
          let '(t', st) := main_loop G W (S n) stdin' in (t ++ t', st)
      | (t, Raise e) => (t, Uncaught e)
      end
  end.

Definition main (G : Globals) (W : World) (stdin : list (outcome string))
    : list event * status :=
  let '(t, st) := main_loop G W 0 stdin in (EvPrint banner :: t, st).

(** ** The script run as a program *)

Definition groq_missing : string := "❌ Error: GROQ_API_KEY not found in .env file".
Definition tavily_missing : string := "❌ Error: TAVILY_API_KEY not found in .env file".

(** Loading the module, then the guard of lines 118-125. *)
Definition run_script (dotenv environ : gmap string string) (W : World)
    (stdin : list (outcome string)) : list event * status :=
  let environ := load_dotenv dotenv environ in
  let G := module_globals environ in
  if negb (truthy (getenv environ "GROQ_API_KEY")) then
    ([EvPrint groq_missing], Returned)
  else if negb (truthy (getenv environ "TAVILY_API_KEY")) then
    ([EvPrint tavily_missing], Returned)
  else
    main G W stdin.

(** ** Sample data

    Concrete credentials, responses and worlds on which the statements
    below are exercised. *)

Definition with_keys : Globals :=
  {| TAVILY_API_KEY := Some "tvly-key"; GROQ_API_KEY := Some " gsk-key " |}.

Definition no_keys : Globals :=
  {| TAVILY_API_KEY := None; GROQ_API_KEY := None |}.

Definition sample_item (title url : string) : pyval :=
  PyDict (<["title" := PyStr title]> (<["url" := PyStr url]> ∅)).

Definition sample_items : list pyval :=
  [sample_item "ITER" "https://iter.org";
   sample_item "NIF" "https://lasers.llnl.gov";
   sample_item "JET" "https://euro-fusion.org";
   sample_item "SPARC" "https://cfs.energy"].

(** A response with a synthesized answer. *)
Definition answered_fields : gmap string pyval :=
  <["answer" := PyStr "Fusion is advancing."]>
    (<["results" := PyList sample_items]> ∅).
Definition answered : pyval := PyDict answered_fields.

(** A response without the [answer] field. *)
Definition unanswered : pyval :=
  PyDict (<["results" := PyList sample_items]> ∅).

(** A response whose [answer] field is JSON [null]. *)
Definition null_answer : pyval :=
  PyDict (<["answer" := PyNone]> (<["results" := PyList sample_items]> ∅)).

(** A world whose search always answers [response], for any key, and whose
    crew always reports. *)
Definition answering (response : pyval) : World :=
  {| TavilyClient := λ _, Ret {| search := λ _, Ret response |};
     construct := λ _ _, Ret tt;
     kickoff := λ _ _, Ret "report";
     repr := λ _, "[...]" |}.

(** A world whose network is down. *)
Definition offline : World :=
  {| TavilyClient := λ _, Ret {| search := λ _,
       Raise (Exn (OtherException "ConnectionError") "connection refused") |};
     construct := λ _ _, Ret tt;
     kickoff := λ _ _,
       Raise (Exn (OtherException "ConnectionError") "connection refused");
     repr := λ _, "[...]" |}.

(** A world in which Ctrl+C is pressed while the crew runs. *)
Definition interrupted : World :=
  {| TavilyClient := λ _, Ret {| search := λ _, Ret answered |};
     construct := λ _ _, Ret tt;
     kickoff := λ _ _, Raise (Exn KeyboardInterrupt "");
     repr := λ _, "[...]" |}.

Definition both_set : gmap string string :=
  <["GROQ_API_KEY" := "gsk-key"]> (<["TAVILY_API_KEY" := "tvly-key"]> ∅).

(** The arguments [set_llm] gives to [ChatOpenAI] for the key [key]. *)
Definition groq_handle (key : string) : ChatOpenAI :=
  {| model := "groq/llama3-70b-8192";
     api_key := strip key;
     base_url := "https://api.groq.com/openai/v1";
     temperature := 5 # 10;
     max_tokens := 1024 |}.

(** The two errors about a missing credential. *)
Definition groq_not_found : exn :=
  Exn ValueError "Groq API key not found in environment variables".

Definition tavily_not_found : exn :=
  Exn ValueError "Tavily API key not found".

(** ** The shape of a numbered entry, as the specification words it *)

Definition title_line (n : nat) (title : string) : string :=
  str_int (Z.of_nat n) +:+ ". " +:+ title.

Definition url_line (url : string) : string := "   " +:+ url.

Definition numbered_entry (n : nat) (title url : string) : string :=
  title_line n title +:+ LF +:+ url_line url.

(** The text of a field of an item, as the entry shows it. *)
Definition field (W : World) (item : pyval) (key : string) : string :=
  match getitem item key with
  | Ret v => py_str W v
  | Raise _ => ""
  end.

Definition has_field (item : pyval) (key : string) : Prop :=
  ∃ v, getitem item key = Ret v.

(** The entry numbered [n] for [item]. *)
Definition entry (W : World) (n : nat) (item : pyval) : string :=
  numbered_entry n (field W item "title") (field W item "url").

(** The block under the fixed heading. *)
Definition top_links (entries : list string) : string :=
  LF +:+ LF +:+ "Top Links:" +:+ LF +:+ String.concat (LF +:+ LF) entries.

(** The tests of the start-up guard. *)
Definition groq_present (dotenv environ : gmap string string) : bool :=
  truthy (getenv (load_dotenv dotenv environ) "GROQ_API_KEY").

Definition tavily_present (dotenv environ : gmap string string) : bool :=
  truthy (getenv (load_dotenv dotenv environ) "TAVILY_API_KEY").

(** A trace in which the interactive loop was entered shows the prompt. *)
Definition entered_loop (t : list event) : Prop := EvInput prompt ∈ t.

(** A trace in which the orchestrator was invoked shows a kickoff. *)
Definition is_kickoff (ev : event) : bool :=
  match ev with
  | EvKickoff _ _ => true
  | _ => false
  end.

Definition is_search (ev : event) : bool :=
  match ev with
  | EvSearch _ => true
  | _ => false
  end.

(** A tool that does not look at the credential itself behaves the same
    with and without it against a service that accepts any key. *)
Definition ignores_tavily_key (W : World) : Prop :=
  ∀ (G G' : Globals) (query : string),
    SearchTool._run G W query = SearchTool._run G' W query.

(** ** More sample data and vocabulary *)

(** A response whose first result has an empty title. *)
Definition untitled_fields : gmap string pyval :=
  <["answer" := PyStr "Fusion is advancing."]>
    (<["results" := PyList [sample_item "" "https://iter.org";
                            sample_item "NIF" "https://lasers.llnl.gov";
                            sample_item "JET" "https://euro-fusion.org"]]> ∅).

(** A response with two results only. *)
Definition two_results_fields : gmap string pyval :=
  <["answer" := PyStr "Fusion is advancing."]>
    (<["results" := PyList (take 2 sample_items)]> ∅).

(** A response with an empty result list. *)
Definition no_results_fields : gmap string pyval :=
  <["answer" := PyStr "Nothing found."]> (<["results" := PyList []]> ∅).

(** A response whose second item has a title and no URL. *)
Definition incomplete_fields : gmap string pyval :=
  <["results" := PyList [sample_item "ITER" "https://iter.org";
                         PyDict (<["title" := PyStr "NIF"]> ∅);
                         sample_item "JET" "https://euro-fusion.org"]]> ∅.

(** A response whose fourth result is [null]. *)
Definition junk_after_third_fields : gmap string pyval :=
  <["results" := PyList (take 3 sample_items ++ [PyNone])]> ∅.

(** A response with an answer and no result list at all. *)
Definition answer_only_fields : gmap string pyval :=
  <["answer" := PyStr "Fusion is advancing."]> ∅.

(** A world in which the crew ends the interpreter with [sys.exit]. *)
Definition exiting : World :=
  {| TavilyClient := λ _, Ret {| search := λ _, Ret answered |};
     construct := λ _ _, Ret tt;
     kickoff := λ _ _, Raise (Exn SystemExit "0");
     repr := λ _, "[...]" |}.

(** A world in which Ctrl+C is pressed while the agent is built. *)
Definition interrupted_building : World :=
  {| TavilyClient := λ _, Ret {| search := λ _, Ret answered |};
     construct := λ _ call,
       match call with
       | NewAgent _ => Raise (Exn KeyboardInterrupt "")
       | _ => Ret tt
       end;
     kickoff := λ _ _, Ret "report";
     repr := λ _, "[...]" |}.

(** A world whose model client refuses an empty key. *)
Definition refusing_empty_key : World :=
  {| TavilyClient := λ _, Ret {| search := λ _, Ret answered |};
     construct := λ _ call,
       match call with
       | NewChatOpenAI args =>
           if String.eqb (api_key args) ""
           then Raise (Exn (OtherException "OpenAIError")
                         "The api_key client option must be set")
           else Ret tt
       | _ => Ret tt
       end;
     kickoff := λ _ _, Ret "report";
     repr := λ _, "[...]" |}.

(** The no-break space, U+00A0. *)
Definition NBSP : string := utf8 [194; 160].

(** The crew of the sample query under the sample credentials. *)
Definition fusion_crew : Crew :=
  match form_crew with_keys (answering answered) 0 "fusion energy" with
  | Ret crew => crew
  | Raise _ => {| agents := []; tasks := []; crew_verbose := false; process := "" |}
  end.

(** An item from which an entry can be made. *)
Definition complete (item : pyval) : Prop :=
  has_field item "title" ∧ has_field item "url".

(** A line that neither asks to leave nor interrupts: a query that is no
    exit keyword, or a failure of [input] that derives from [Exception]. *)
Definition harmless (delivered : outcome string) : Prop :=
  match delivered with
  | Ret query => lower (strip query) ∉ ["exit"; "quit"]
  | Raise e => is_Exception (exn_cls e) = true
  end.

(** The text after the white-space character at the head of [s], if [s]
    starts with one. *)
Definition after_space (s : string) : option string :=
  match s with
  | String b1 s1 =>
      if isspace (String b1 "") then Some s1 else
      match s1 with
      | String b2 s2 =>
          if isspace (String b1 (String b2 "")) then Some s2 else
          match s2 with
          | String b3 s3 =>
              if isspace (String b1 (String b2 (String b3 ""))) then Some s3
              else None
          | EmptyString => None
          end
      | EmptyString => None
      end
  | EmptyString => None
  end.

(** The text starts with a white-space character. *)
Definition starts_with_space (s : string) : bool :=
  match after_space s with
  | Some _ => true
  | None => false
  end.

(** The text ends with a white-space character: one of its suffixes is
    such a character. *)
Fixpoint ends_with_space (s : string) : bool :=
  match s with
  | String _ s' => isspace s || ends_with_space s'
  | EmptyString => false
  end.

(** The bytes that open the encoding of a white-space character. *)
Definition space_lead (b : ascii) : bool :=
  bool_decide
    (b ∈ (λ ch, match ch with
                | String b _ => b
                | EmptyString => "000"%char
                end) <$> whitespace).

(** A text none of whose bytes opens a white-space character. *)
Fixpoint leadless (s : string) : bool :=
  match s with
  | String b s' => negb (space_lead b) && leadless s'
  | EmptyString => true
  end.

(** * Properties *)

(** ** Strings *)

Lemma append_cons (c : ascii) (s1 s2 : string) :
  String c s1 +:+ s2 = String c (s1 +:+ s2).
Proof. reflexivity. Qed.

Lemma append_empty_r (s : string) : s +:+ "" = s.
Proof.
  induction s as [|c s IH]; [reflexivity |].
  by rewrite append_cons, IH.
Qed.

Lemma append_assoc (s1 s2 s3 : string) :
  (s1 +:+ s2) +:+ s3 = s1 +:+ s2 +:+ s3.
Proof.
  induction s1 as [|c s1 IH]; [reflexivity |].
  by rewrite !append_cons, IH.
Qed.

Lemma length_append (s1 s2 : string) :
  String.length (s1 +:+ s2) = (String.length s1 + String.length s2)%nat.
Proof.
  induction s1 as [|c s1 IH]; [reflexivity |].
  rewrite append_cons. simpl. by rewrite IH.
Qed.

Lemma lstrip_after_space (s : string) :
  lstrip s = match after_space s with
             | Some rest => lstrip rest
             | None => s
             end.
Proof.
  destruct s as [| b1 [| b2 [| b3 s]]]; simpl; try reflexivity.
  - by destruct (isspace _).
  - destruct (isspace (String b1 "")); [reflexivity |].
    by destruct (isspace _).
  - destruct (isspace (String b1 "")); [reflexivity |].
    destruct (isspace (String b1 (String b2 ""))); [reflexivity |].
    by destruct (isspace _).
Qed.

Lemma is_blank_after_space (s : string) :
  is_blank s = match s with
               | EmptyString => true
               | _ => match after_space s with
                      | Some rest => is_blank rest
                      | None => false
                      end
               end.
Proof.
  destruct s as [| b1 [| b2 [| b3 s]]]; simpl; try reflexivity.
  - by destruct (isspace _).
  - destruct (isspace (String b1 "")); [reflexivity |].
    by destruct (isspace _).
  - destruct (isspace (String b1 "")); [reflexivity |].
    destruct (isspace (String b1 (String b2 ""))); [reflexivity |].
    by destruct (isspace _).
Qed.

Lemma after_space_length (s rest : string) :
  after_space s = Some rest → (String.length rest < String.length s)%nat.
Proof.
  destruct s as [| b1 [| b2 [| b3 s]]]; simpl; try discriminate.
  - destruct (isspace _); [| discriminate]. intros [= <-]. simpl. lia.
  - destruct (isspace (String b1 "")); [intros [= <-]; simpl; lia |].
    destruct (isspace _); [| discriminate]. intros [= <-]. simpl. lia.
  - destruct (isspace (String b1 "")); [intros [= <-]; simpl; lia |].
    destruct (isspace (String b1 (String b2 ""))); [intros [= <-]; simpl; lia |].
    destruct (isspace _); [| discriminate]. intros [= <-]. simpl. lia.
Qed.

Lemma append_empty_l (s : string) : "" +:+ s = s.
Proof. reflexivity. Qed.

Lemma after_space_app (s rest t : string) :
  after_space s = Some rest → after_space (s +:+ t) = Some (rest +:+ t).
Proof.
  destruct s as [| b1 [| b2 [| b3 s]]]; [discriminate | | |];
    rewrite ?append_cons, ?append_empty_l; unfold after_space.
  - destruct (isspace (String b1 "")) eqn:H1; [| discriminate].
    by intros [= <-].
  - destruct (isspace (String b1 "")) eqn:H1; [by intros [= <-] |].
    destruct (isspace (String b1 (String b2 ""))) eqn:H2; [| discriminate].
    by intros [= <-].
  - destruct (isspace (String b1 "")) eqn:H1; [by intros [= <-] |].
    destruct (isspace (String b1 (String b2 ""))) eqn:H2; [by intros [= <-] |].
    destruct (isspace (String b1 (String b2 (String b3 "")))) eqn:H3; [| discriminate].
    by intros [= <-].
Qed.

(** Induction along the white space at the head of a text. *)
Lemma after_space_ind (P : string → Prop) :
  (∀ s, (∀ rest, after_space s = Some rest → P rest) → P s) → ∀ s, P s.
Proof.
  intros Hstep s.
  assert (H : ∀ n s, (String.length s < n)%nat → P s).
  { induction n as [| n IH]; intros s' Hlen; [lia |].
    apply Hstep. intros rest Hrest. apply IH.
    apply after_space_length in Hrest. lia. }
  apply (H (S (String.length s))). lia.
Qed.

Lemma lstrip_blank (s : string) : is_blank s = true → lstrip s = "".
Proof.
  induction s as [s IH] using after_space_ind.
  rewrite is_blank_after_space, lstrip_after_space.
  destruct s as [| b s]; [reflexivity |].
  destruct (after_space (String b s)) as [rest |]; [by apply IH | discriminate].
Qed.

Lemma rstrip_cons (b : ascii) (s : string) :
  rstrip (String b s)
  = if is_blank (String b s) then "" else String b (rstrip s).
Proof. reflexivity. Qed.

Lemma rstrip_blank (s : string) : is_blank s = true → rstrip s = "".
Proof.
  destruct s as [| b s]; [reflexivity |]. intros H. by rewrite rstrip_cons, H.
Qed.

Lemma strip_blank (s : string) : is_blank s = true → strip s = "".
Proof. intros H. unfold strip. by rewrite lstrip_blank. Qed.

Lemma lstrip_app_blank (pre s : string) :
  is_blank pre = true → lstrip (pre +:+ s) = lstrip s.
Proof.
  induction pre as [pre IH] using after_space_ind.
  rewrite is_blank_after_space.
  destruct pre as [| b pre]; [reflexivity |].
  destruct (after_space (String b pre)) as [rest |] eqn:Hrest; [| discriminate].
  intros Hblank. rewrite (lstrip_after_space (String b pre +:+ s)).
  rewrite (after_space_app _ _ s Hrest). by apply IH.
Qed.

Lemma is_blank_app (s1 s2 : string) :
  is_blank s1 = true → is_blank s2 = true → is_blank (s1 +:+ s2) = true.
Proof.
  intros H1 H2. revert H1.
  induction s1 as [s1 IH] using after_space_ind.
  rewrite is_blank_after_space.
  destruct s1 as [| b s1]; [done |].
  destruct (after_space (String b s1)) as [rest |] eqn:Hrest; [| discriminate].
  intros Hblank. rewrite is_blank_after_space, append_cons.
  rewrite <- append_cons, (after_space_app _ _ s2 Hrest). by apply IH.
Qed.

(** ** Characters that open no white space *)

Lemma isspace_lead (b : ascii) (s : string) :
  isspace (String b s) = true → space_lead b = true.
Proof.
  unfold isspace. intros H%bool_decide_eq_true_1.
  unfold whitespace in H.
  repeat (apply elem_of_cons in H as [H | H];
          [injection H as -> _; reflexivity |]).
  by apply elem_of_nil in H.
Qed.

Lemma after_space_lead (b : ascii) (s : string) :
  space_lead b = false → after_space (String b s) = None.
Proof.
  intros Hb.
  assert (H : ∀ t, isspace (String b t) = false).
  { intros t. destruct (isspace (String b t)) eqn:E; [| reflexivity].
    apply isspace_lead in E. congruence. }
  destruct s as [| b2 [| b3 s]]; simpl; by rewrite ?H.
Qed.

Lemma lstrip_lead (b : ascii) (s : string) :
  space_lead b = false → lstrip (String b s) = String b s.
Proof. intros Hb. by rewrite lstrip_after_space, after_space_lead. Qed.

Lemma is_blank_lead (b : ascii) (s : string) :
  space_lead b = false → is_blank (String b s) = false.
Proof. intros Hb. by rewrite is_blank_after_space, after_space_lead. Qed.

Lemma rstrip_app_blank (s post : string) :
  leadless s = true → is_blank post = true → rstrip (s +:+ post) = s.
Proof.
  intros Hs Hpost. induction s as [| b s IH]; [by apply rstrip_blank |].
  simpl in Hs. apply andb_true_iff in Hs as [Hb Hs].
  apply negb_true_iff in Hb.
  rewrite append_cons, rstrip_cons, (is_blank_lead _ _ Hb). by rewrite IH.
Qed.

Lemma lower_char_lead (b : ascii) : space_lead b = true → lower_char b = b.
Proof.
  unfold space_lead. intros H%bool_decide_eq_true_1. simpl in H.
  repeat (apply elem_of_cons in H as [-> | H]; [reflexivity |]).
  by apply elem_of_nil in H.
Qed.

Lemma leadless_of_lower (s : string) : leadless (lower s) = true → leadless s = true.
Proof.
  induction s as [| b s IH]; simpl; [reflexivity |].
  intros [Hb Hs]%andb_true_iff. apply andb_true_iff. split; [| by apply IH].
  destruct (space_lead b) eqn:Hlead; [| reflexivity].
  by rewrite (lower_char_lead b Hlead), Hlead in Hb.
Qed.

Lemma strip_padded (pre word post : string) :
  is_blank pre = true → is_blank post = true →
  leadless word = true → word ≠ "" →
  strip (pre +:+ word +:+ post) = word.
Proof.
  intros Hpre Hpost Hword Hne. unfold strip.
  rewrite (lstrip_app_blank _ _ Hpre).
  destruct word as [| b word]; [done |].
  pose proof Hword as Hword'. simpl in Hword'.
  apply andb_true_iff in Hword' as [Hb%negb_true_iff _].
  rewrite append_cons, (lstrip_lead _ _ Hb), <- append_cons.
  by apply rstrip_app_blank.
Qed.

(** ** What [strip] leaves has no white space at either end *)

Lemma lstrip_no_leading_space (s : string) : starts_with_space (lstrip s) = false.
Proof.
  induction s as [s IH] using after_space_ind.
  rewrite lstrip_after_space.
  destruct (after_space s) as [rest |] eqn:Hrest; [by apply IH |].
  unfold starts_with_space. by rewrite Hrest.
Qed.

Lemma rstrip_split (s : string) :
  ∃ tail, s = rstrip s +:+ tail ∧ is_blank tail = true.
Proof.
  induction s as [| b s (tail & Hs & Htail)]; [by exists "" |].
  rewrite rstrip_cons. destruct (is_blank (String b s)) eqn:Hblank.
  - by exists (String b s).
  - exists tail. split; [| exact Htail]. rewrite append_cons. by f_equal.
Qed.

Lemma rstrip_keeps_head (s : string) :
  starts_with_space s = false → starts_with_space (rstrip s) = false.
Proof.
  intros Hs. destruct (rstrip_split s) as (tail & Heq & _).
  unfold starts_with_space in *.
  destruct (after_space (rstrip s)) as [rest |] eqn:Hrest; [| reflexivity].
  by rewrite Heq, (after_space_app _ _ tail Hrest) in Hs.
Qed.

Lemma isspace_blank (ch : string) :
  isspace ch = true → is_blank ch = true ∧ ch ≠ "".
Proof.
  unfold isspace. intros H%bool_decide_eq_true_1. unfold whitespace in H.
  repeat (apply elem_of_cons in H as [-> | H]; [by split |]).
  by apply elem_of_nil in H.
Qed.

Lemma ends_with_space_inv (s : string) :
  ends_with_space s = true → ∃ p ch, s = p +:+ ch ∧ isspace ch = true.
Proof.
  induction s as [| b s IH]; [discriminate |].
  simpl. intros [H | H]%orb_true_iff.
  - by exists "", (String b s).
  - destruct (IH H) as (p & ch & -> & Hch). by exists (String b p), ch.
Qed.

Lemma rstrip_within (p q : string) :
  q ≠ "" → is_blank q = true → ∃ x, p = rstrip (p +:+ q) +:+ x.
Proof.
  intros Hne Hq. induction p as [| b p [x Hx]].
  - exists "". by rewrite append_empty_l, (rstrip_blank _ Hq).
  - rewrite append_cons, rstrip_cons.
    destruct (is_blank (String b (p +:+ q))); [by exists (String b p) |].
    exists x. rewrite append_cons. congruence.
Qed.

Lemma rstrip_no_trailing_space (s : string) : ends_with_space (rstrip s) = false.
Proof.
  destruct (ends_with_space (rstrip s)) eqn:Hends; [| reflexivity].
  destruct (ends_with_space_inv _ Hends) as (p & ch & Hr & Hch).
  destruct (isspace_blank _ Hch) as [Hblank Hne].
  destruct (rstrip_split s) as (tail & Hs & Htail).
  assert (Hq : ch +:+ tail ≠ "").
  { destruct ch as [| c ch]; [done |]. by rewrite append_cons. }
  destruct (rstrip_within p (ch +:+ tail) Hq (is_blank_app _ _ Hblank Htail))
    as [x Hx].
  rewrite <- append_assoc, <- Hr, <- Hs, Hr in Hx.
  apply (f_equal String.length) in Hx. rewrite !length_append in Hx.
  destruct ch; [done | simpl in Hx; lia].
Qed.

Lemma strip_has_no_surrounding_space (s : string) :
  starts_with_space (strip s) = false ∧ ends_with_space (strip s) = false.
Proof.
  unfold strip. split.
  - apply rstrip_keeps_head, lstrip_no_leading_space.
  - apply rstrip_no_trailing_space.
Qed.

Lemma blank_is_no_keyword (s : string) :
  is_blank s = true → lower (strip s) ∉ ["exit"; "quit"].
Proof.
  intros H. rewrite strip_blank by done. simpl.
  intros Hin. repeat (apply elem_of_cons in Hin as [Hin | Hin]; [discriminate |]).
  by apply elem_of_nil in Hin.
Qed.

(** A decidable statement about concrete data, settled by evaluating its
    decision procedure. *)
Ltac decide_by_evaluation :=
  apply (bool_decide_unpack _); vm_compute; exact I.

(** ** Handlers *)

Lemma truthy_false_cases (v : option string) :
  truthy v = false → v = None ∨ v = Some "".
Proof.
  destruct v as [s|]; simpl; [| by left].
  intros H. right. apply negb_false_iff, String.eqb_eq in H. by subst.
Qed.

(** ** The search tool *)

Lemma failure_message_marked (e : exn) :
  String.prefix "⚠️" (SearchTool.failure_message e) = true.
Proof. reflexivity. Qed.

Lemma failure_message_contains (e : exn) :
  contains (exn_str e) (SearchTool.failure_message e).
Proof.
  exists "⚠️ Search failed. Error: ", "". unfold SearchTool.failure_message.
  by rewrite append_empty_r.
Qed.

Section search_tool.

Context (G : Globals) (W : World) (query : string).

Lemma _run_of_raise (t : list event) (e : exn) :
  SearchTool._run_try G W query = (t, Raise e) →
  SearchTool._run G W query =
    if is_Exception (exn_cls e)
    then (t, Ret (SearchTool.failure_message e))
    else (t, Raise e).
Proof.
  intros H. unfold SearchTool._run. rewrite H. simpl.
  destruct (is_Exception (exn_cls e)); simpl; [| reflexivity].
  by rewrite app_nil_r.
Qed.

Lemma _run_of_ret (t : list event) (s : string) :
  SearchTool._run_try G W query = (t, Ret s) →
  SearchTool._run G W query = (t, Ret s).
Proof. intros H. unfold SearchTool._run. by rewrite H. Qed.

Lemma _run_never_raises_Exception (t : list event) (e : exn) :
  SearchTool._run G W query = (t, Raise e) → is_Exception (exn_cls e) = false.
Proof.
  destruct (SearchTool._run_try G W query) as [t0 [s | e0]] eqn:Htry.
  - rewrite (_run_of_ret _ _ Htry). discriminate.
  - rewrite (_run_of_raise _ _ Htry).
    destruct (is_Exception (exn_cls e0)) eqn:Hc; [discriminate |].
    intros [= _ <-]. exact Hc.
Qed.

(** What does not derive from [Exception] is not for the tool to catch. *)
Lemma _run_lets_base_exceptions_through (t : list event) (e : exn) :
  SearchTool._run_try G W query = (t, Raise e) →
  is_Exception (exn_cls e) = false →
  SearchTool._run G W query = (t, Raise e).
Proof.
  intros Htry Hcls. rewrite (_run_of_raise _ _ Htry). by rewrite Hcls.
Qed.

Lemma _run_try_missing_credential :
  truthy (TAVILY_API_KEY G) = false →
  SearchTool._run_try G W query = ([], Raise (Exn ValueError "Tavily API key not found")).
Proof. intros H. unfold SearchTool._run_try. rewrite H. reflexivity. Qed.

Lemma _run_try_client_failure (e : exn) :
  truthy (TAVILY_API_KEY G) = true →
  TavilyClient W (TAVILY_API_KEY G) = Raise e →
  SearchTool._run_try G W query = ([], Raise e).
Proof. intros Hk Hc. unfold SearchTool._run_try. rewrite Hk, Hc. reflexivity. Qed.

Lemma _run_try_search (tav : TavClient) :
  truthy (TAVILY_API_KEY G) = true →
  TavilyClient W (TAVILY_API_KEY G) = Ret tav →
  SearchTool._run_try G W query =
    match search tav (SearchTool.request query) with
    | Ret result =>
        match SearchTool.links W result with
        | Ret links =>
            match get result "answer" (PyStr SearchTool.fallback) with
            | Ret answer =>
                ([EvSearch (SearchTool.request query)],
                 Ret (py_str W answer +:+ top_links links))
            | Raise e => ([EvSearch (SearchTool.request query)], Raise e)
            end
        | Raise e => ([EvSearch (SearchTool.request query)], Raise e)
        end
    | Raise e => ([EvSearch (SearchTool.request query)], Raise e)
    end.
Proof.
  intros Hk Hc. unfold SearchTool._run_try. rewrite Hk, Hc. simpl.
  destruct (search tav _) as [result | e]; simpl; [| reflexivity].
  destruct (SearchTool.links W result) as [links | e]; simpl; [| reflexivity].
  destruct (get result _ _) as [answer | e]; simpl; reflexivity.
Qed.

End search_tool.

Lemma links_of_dict (W : World) (d : gmap string pyval) (items : list pyval) :
  d !! "results" = Some (PyList items) →
  SearchTool.links W (PyDict d) = SearchTool.links_from W 0 (take 3 items).
Proof. intros H. unfold SearchTool.links. simpl. by rewrite H. Qed.

Lemma link_ret_inv (W : World) (i : nat) (item : pyval) (l : string) :
  SearchTool.link W i item = Ret l →
  ∃ title url,
    getitem item "title" = Ret title ∧ getitem item "url" = Ret url
    ∧ l = str_int (Z.of_nat i + 1) +:+ ". " +:+ py_str W title +:+ LF
            +:+ "   " +:+ py_str W url.
Proof.
  unfold SearchTool.link.
  destruct (getitem item "title") as [title | e]; simpl; [| discriminate].
  destruct (getitem item "url") as [url | e]; simpl; [| discriminate].
  intros [= <-]. by exists title, url.
Qed.

Lemma links_from_cons_inv (W : World) (i : nat) (item : pyval)
    (items : list pyval) (ls : list string) :
  SearchTool.links_from W i (item :: items) = Ret ls →
  ∃ l ls', SearchTool.link W i item = Ret l
           ∧ SearchTool.links_from W (S i) items = Ret ls' ∧ ls = l :: ls'.
Proof.
  simpl. destruct (SearchTool.link W i item) as [l | e]; simpl; [| discriminate].
  destruct (SearchTool.links_from W (S i) items) as [ls' | e]; simpl; [| discriminate].
  intros [= <-]. by exists l, ls'.
Qed.

(** One entry per item, whatever the number of items. *)
Lemma links_from_length (W : World) (items : list pyval) :
  ∀ (i : nat) (ls : list string),
    SearchTool.links_from W i items = Ret ls → List.length ls = List.length items.
Proof.
  induction items as [| item items IH]; intros i ls H.
  - simpl in H. by injection H as <-.
  - apply links_from_cons_inv in H as (l & ls' & _ & Hrest & ->).
    simpl. f_equal. by eapply IH.
Qed.

(** What a search that went through returns. *)
Lemma _run_try_success_inv (G : Globals) (W : World) (query : string)
    (tav : TavClient) (d : gmap string pyval) (t : list event) (s : string) :
  TavilyClient W (TAVILY_API_KEY G) = Ret tav →
  search tav (SearchTool.request query) = Ret (PyDict d) →
  SearchTool._run_try G W query = (t, Ret s) →
  ∃ links,
    SearchTool.links W (PyDict d) = Ret links
    ∧ t = [EvSearch (SearchTool.request query)]
    ∧ s = py_str W (default (PyStr SearchTool.fallback) (d !! "answer"))
            +:+ top_links links.
Proof.
  intros Hc Hs Hrun.
  destruct (truthy (TAVILY_API_KEY G)) eqn:Hk.
  - rewrite (_run_try_search _ _ _ _ Hk Hc), Hs in Hrun.
    destruct (SearchTool.links W (PyDict d)) as [links | e]; [| discriminate].
    simpl in Hrun. injection Hrun as <- <-. by exists links.
  - rewrite (_run_try_missing_credential _ _ _ Hk) in Hrun. discriminate.
Qed.

Lemma link_is_entry (W : World) (i : nat) (item : pyval) (l : string) :
  SearchTool.link W i item = Ret l →
  has_field item "title" ∧ has_field item "url" ∧ l = entry W (S i) item.
Proof.
  intros (title & url & Ht & Hu & ->)%link_ret_inv.
  split; [by exists title |]. split; [by exists url |].
  unfold entry, numbered_entry, title_line, url_line, field. rewrite Ht, Hu.
  replace (Z.of_nat (S i)) with (Z.of_nat i + 1)%Z by lia.
  generalize (str_int (Z.of_nat i + 1)). intros n.
  by rewrite !append_assoc.
Qed.

Lemma title_line_nonempty (n : nat) (title : string) :
  0 < n → n < 10 → title_line n title ≠ "".
Proof.
  intros Hpos Hlt. unfold title_line.
  do 10 (destruct n as [| n]; [first [lia | by vm_compute] |]). lia.
Qed.

(** The exceptions the script raises by itself, on the response, all derive
    from [Exception]. *)
Lemma getitem_raises_Exception (v : pyval) (key : string) (e : exn) :
  getitem v key = Raise e → is_Exception (exn_cls e) = true.
Proof.
  destruct v; simpl; try by intros [= <-].
  destruct (_ !! key); [discriminate | by intros [= <-]].
Qed.

Lemma slice3_raises_Exception (v : pyval) (e : exn) :
  slice3 v = Raise e → is_Exception (exn_cls e) = true.
Proof. destruct v; simpl; try discriminate; by intros [= <-]. Qed.

Lemma links_from_raises_Exception (W : World) (items : list pyval) :
  ∀ (i : nat) (e : exn),
    SearchTool.links_from W i items = Raise e → is_Exception (exn_cls e) = true.
Proof.
  induction items as [| item items IH]; intros i e; simpl; [discriminate |].
  unfold SearchTool.link.
  destruct (getitem item "title") as [title |] eqn:Ht; simpl;
    [| intros [= <-]; by eapply getitem_raises_Exception].
  destruct (getitem item "url") as [url |] eqn:Hu; simpl;
    [| intros [= <-]; by eapply getitem_raises_Exception].
  destruct (SearchTool.links_from W (S i) items) eqn:Hrest; simpl;
    [discriminate |].
  intros [= <-]. by eapply IH.
Qed.

Lemma links_raises_Exception (W : World) (result : pyval) (e : exn) :
  SearchTool.links W result = Raise e → is_Exception (exn_cls e) = true.
Proof.
  unfold SearchTool.links.
  destruct (getitem result "results") as [results |] eqn:Hr; simpl;
    [| intros [= <-]; by eapply getitem_raises_Exception].
  destruct (slice3 results) as [items |] eqn:Hs; simpl;
    [| intros [= <-]; by eapply slice3_raises_Exception].
  apply links_from_raises_Exception.
Qed.

(** At most three entries, one for each of the first three items. *)
Lemma links_count (W : World) (d : gmap string pyval) (items : list pyval)
    (ls : list string) :
  d !! "results" = Some (PyList items) →
  SearchTool.links W (PyDict d) = Ret ls →
  List.length ls = (3 `min` List.length items)%nat.
Proof.
  intros Hres Hlinks. rewrite (links_of_dict _ _ _ Hres) in Hlinks.
  rewrite (links_from_length _ _ _ _ Hlinks). apply length_take.
Qed.

(** A malformed response, a response without results, an item without URL. *)
Example malformed_response_is_warning :
  SearchTool._run with_keys (answering (PyList [])) "fusion energy"
  = ([EvSearch (SearchTool.request "fusion energy")],
     Ret "⚠️ Search failed. Error: list indices must be integers or slices, not str").
Proof. vm_compute. reflexivity. Qed.

Example missing_results_is_warning :
  SearchTool._run with_keys (answering (PyDict ∅)) "fusion energy"
  = ([EvSearch (SearchTool.request "fusion energy")],
     Ret "⚠️ Search failed. Error: 'results'").
Proof. vm_compute. reflexivity. Qed.

Example missing_url_is_warning :
  SearchTool._run with_keys
    (answering (PyDict (<["results" := PyList [PyDict (<["title" := PyStr "ITER"]> ∅)]]> ∅)))
    "fusion energy"
  = ([EvSearch (SearchTool.request "fusion energy")],
     Ret "⚠️ Search failed. Error: 'url'").
Proof. vm_compute. reflexivity. Qed.

(** C1.  Whatever exception (an instance of [Exception]: network failure,
    malformed response, missing field, missing credential) the search call
    raises, [SearchTool._run] returns a string that begins with the warning
    marker and contains the message of the exception; nothing is raised to
    the caller. *)
Theorem run_failure_is_warning (G : Globals) (W : World) (query : string)
    (t : list event) (e : exn) :
  SearchTool._run_try G W query = (t, Raise e) →
  is_Exception (exn_cls e) = true →
  SearchTool._run G W query = (t, Ret (SearchTool.failure_message e))
  ∧ String.prefix "⚠️" (SearchTool.failure_message e) = true
  ∧ contains (exn_str e) (SearchTool.failure_message e)
  ∧ ∀ t' e', SearchTool._run G W query ≠ (t', Raise e').
Proof.
  intros Hraise Hexc.
  assert (Hrun : SearchTool._run G W query
                 = (t, Ret (SearchTool.failure_message e))).
  { rewrite (_run_of_raise _ _ _ _ _ Hraise). by rewrite Hexc. }
  split; [exact Hrun |].
  split; [apply failure_message_marked |].
  split; [apply failure_message_contains |].
  intros t' e'. rewrite Hrun. discriminate.
Qed.

(** A network failure, absorbed. *)
Lemma run_failure_is_warning_witness :
  SearchTool._run with_keys offline "fusion energy"
  = ([EvSearch (SearchTool.request "fusion energy")],
     Ret "⚠️ Search failed. Error: connection refused").
Proof.
  apply (run_failure_is_warning with_keys offline "fusion energy"
           [EvSearch (SearchTool.request "fusion energy")]
           (Exn (OtherException "ConnectionError") "connection refused"));
    reflexivity.
Defined.

(** C6, as stated, fails.  The results are printed as they come: with an
    empty title the first entry is a number with nothing after it; and
    with three results of which one has no URL there is no entry at all,
    the tool answers the warning. *)
Lemma entries_are_not_guaranteed :
  SearchTool._run with_keys (answering (PyDict untitled_fields)) "fusion energy"
  = ([EvSearch (SearchTool.request "fusion energy")],
     Ret ("Fusion is advancing." +:+ LF +:+ LF +:+ "Top Links:" +:+ LF
          +:+ "1. " +:+ LF +:+ "   https://iter.org" +:+ LF +:+ LF
          +:+ "2. NIF" +:+ LF +:+ "   https://lasers.llnl.gov" +:+ LF +:+ LF
          +:+ "3. JET" +:+ LF +:+ "   https://euro-fusion.org"))
  ∧ SearchTool._run with_keys (answering (PyDict incomplete_fields)) "fusion energy"
    = ([EvSearch (SearchTool.request "fusion energy")],
       Ret "⚠️ Search failed. Error: 'url'").
Proof. split; vm_compute; reflexivity. Qed.

(** C6, amended.  When the response holds at least three results and each
    of the first three has a title and a URL, the tool returns the answer
    text, the fixed [Top Links:] heading and exactly three entries, one
    empty line apart: entry [k], for [k] from 1 to 3, is [k. ] followed by
    the title of the [k]-th result as it was received, then on the next
    line three spaces and its URL. *)
Theorem three_numbered_entries (G : Globals) (W : World) (query : string)
    (tav : TavClient) (d : gmap string pyval)
    (item1 item2 item3 : pyval) (rest : list pyval)
    (title1 url1 title2 url2 title3 url3 : pyval) :
  truthy (TAVILY_API_KEY G) = true →
  TavilyClient W (TAVILY_API_KEY G) = Ret tav →
  search tav (SearchTool.request query) = Ret (PyDict d) →
  d !! "results" = Some (PyList (item1 :: item2 :: item3 :: rest)) →
  getitem item1 "title" = Ret title1 → getitem item1 "url" = Ret url1 →
  getitem item2 "title" = Ret title2 → getitem item2 "url" = Ret url2 →
  getitem item3 "title" = Ret title3 → getitem item3 "url" = Ret url3 →
  SearchTool.links W (PyDict d)
  = Ret ["1. " +:+ py_str W title1 +:+ LF +:+ "   " +:+ py_str W url1;
         "2. " +:+ py_str W title2 +:+ LF +:+ "   " +:+ py_str W url2;
         "3. " +:+ py_str W title3 +:+ LF +:+ "   " +:+ py_str W url3]
  ∧ SearchTool._run G W query
    = ([EvSearch (SearchTool.request query)],
       Ret (py_str W (default (PyStr "I found these resources:") (d !! "answer"))
            +:+ LF +:+ LF +:+ "Top Links:" +:+ LF
            +:+ "1. " +:+ py_str W title1 +:+ LF +:+ "   " +:+ py_str W url1
            +:+ LF +:+ LF
            +:+ "2. " +:+ py_str W title2 +:+ LF +:+ "   " +:+ py_str W url2
            +:+ LF +:+ LF
            +:+ "3. " +:+ py_str W title3 +:+ LF +:+ "   " +:+ py_str W url3)).
Proof.
  intros Hk Hc Hs Hres Ht1 Hu1 Ht2 Hu2 Ht3 Hu3.
  assert (Hlinks : SearchTool.links W (PyDict d)
            = Ret ["1. " +:+ py_str W title1 +:+ LF +:+ "   " +:+ py_str W url1;
                   "2. " +:+ py_str W title2 +:+ LF +:+ "   " +:+ py_str W url2;
                   "3. " +:+ py_str W title3 +:+ LF +:+ "   " +:+ py_str W url3]).
  { rewrite (links_of_dict _ _ _ Hres). simpl. unfold SearchTool.link.
    by rewrite Ht1, Hu1, Ht2, Hu2, Ht3, Hu3. }
  split; [exact Hlinks |].
  apply _run_of_ret. rewrite (_run_try_search _ _ _ _ Hk Hc), Hs, Hlinks.
  simpl. unfold top_links. simpl. by rewrite !append_assoc.
Qed.

(** Four results found, three shown. *)
Lemma three_numbered_entries_witness :
  SearchTool._run with_keys (answering answered) "fusion energy"
  = ([EvSearch (SearchTool.request "fusion energy")],
     Ret ("Fusion is advancing." +:+ LF +:+ LF +:+ "Top Links:" +:+ LF
          +:+ "1. ITER" +:+ LF +:+ "   https://iter.org" +:+ LF +:+ LF
          +:+ "2. NIF" +:+ LF +:+ "   https://lasers.llnl.gov" +:+ LF +:+ LF
          +:+ "3. JET" +:+ LF +:+ "   https://euro-fusion.org")).
Proof.
  apply (three_numbered_entries with_keys (answering answered) "fusion energy"
           {| search := λ _, Ret answered |} answered_fields
           (sample_item "ITER" "https://iter.org")
           (sample_item "NIF" "https://lasers.llnl.gov")
           (sample_item "JET" "https://euro-fusion.org")
           [sample_item "SPARC" "https://cfs.energy"]
           (PyStr "ITER") (PyStr "https://iter.org")
           (PyStr "NIF") (PyStr "https://lasers.llnl.gov")
           (PyStr "JET") (PyStr "https://euro-fusion.org"));
    vm_compute; reflexivity.
Defined.

(** On success the link block follows [str] of the value under [answer],
    and the fallback phrase when the response has no such key. *)
Lemma run_answer_or_fallback (G : Globals) (W : World) (query : string)
    (tav : TavClient) (d : gmap string pyval) (t : list event) (s : string) :
  TavilyClient W (TAVILY_API_KEY G) = Ret tav →
  search tav (SearchTool.request query) = Ret (PyDict d) →
  SearchTool._run_try G W query = (t, Ret s) →
  ∃ links,
    SearchTool._run G W query
    = (t, Ret (match d !! "answer" with
               | Some answer => py_str W answer
               | None => SearchTool.fallback
               end +:+ top_links links)).
Proof.
  intros Hc Hs Hrun.
  destruct (_run_try_success_inv _ _ _ _ _ _ _ Hc Hs Hrun) as (links & _ & _ & ->).
  exists links. rewrite (_run_of_ret _ _ _ _ _ Hrun).
  by destruct (d !! "answer").
Qed.

(** C7, at a response whose [answer] is [null]: the search went through,
    the API returned no answer, and the link block is preceded by the text
    [None], not by the fallback phrase. *)
Theorem null_answer_is_printed_as_None :
  ∃ s,
    SearchTool._run with_keys (answering null_answer) "fusion energy"
    = ([EvSearch (SearchTool.request "fusion energy")], Ret s)
    ∧ s = "None" +:+ top_links
            [numbered_entry 1 "ITER" "https://iter.org";
             numbered_entry 2 "NIF" "https://lasers.llnl.gov";
             numbered_entry 3 "JET" "https://euro-fusion.org"]
    ∧ String.prefix SearchTool.fallback s = false.
Proof.
  eexists. split; [vm_compute; reflexivity |].
  split; vm_compute; reflexivity.
Qed.

(** The same search without the [answer] key shows the fallback phrase. *)
Example unanswered_shows_fallback :
  SearchTool._run with_keys (answering unanswered) "fusion energy"
  = ([EvSearch (SearchTool.request "fusion energy")],
     Ret (SearchTool.fallback +:+ top_links
            [numbered_entry 1 "ITER" "https://iter.org";
             numbered_entry 2 "NIF" "https://lasers.llnl.gov";
             numbered_entry 3 "JET" "https://euro-fusion.org"])).
Proof. vm_compute. reflexivity. Qed.

(** ** The model provider and the crew *)

Section building.

Context (G : Globals) (W : World) (n : nat).

Lemma set_llm_missing_credential :
  truthy (GROQ_API_KEY G) = false → set_llm G W n = Raise groq_not_found.
Proof.
  intros [H | H]%truthy_false_cases; unfold set_llm; by rewrite H.
Qed.

(** With a key, [set_llm] ends as the call of [ChatOpenAI] ends. *)
Lemma set_llm_present (key : string) :
  GROQ_API_KEY G = Some key → key ≠ "" →
  set_llm G W n
  = match construct W n (NewChatOpenAI (groq_handle key)) with
    | Ret _ => Ret (groq_handle key)
    | Raise e => Raise e
    end.
Proof.
  intros HG Hne%String.eqb_neq. unfold set_llm. rewrite HG, Hne.
  fold (groq_handle key). by destruct (construct W n _).
Qed.

Lemma truthy_some (v : option string) :
  truthy v = true → ∃ key, v = Some key ∧ key ≠ "".
Proof.
  destruct v as [key |]; simpl; [| discriminate].
  intros H%negb_true_iff%String.eqb_neq. eauto.
Qed.

Lemma form_crew_missing_credential (query : string) :
  truthy (GROQ_API_KEY G) = false → form_crew G W n query = Raise groq_not_found.
Proof.
  intros H. unfold form_crew. by rewrite set_llm_missing_credential.
Qed.

(** What [form_crew] raises is the error of the missing key, or what one
    of the constructors raised. *)
Lemma form_crew_raise_inv (query : string) (e : exn) :
  form_crew G W n query = Raise e →
  (truthy (GROQ_API_KEY G) = false ∧ e = groq_not_found)
  ∨ ∃ call, construct W n call = Raise e.
Proof.
  destruct (truthy (GROQ_API_KEY G)) eqn:Hkey.
  - destruct (truthy_some _ Hkey) as (key & HG & Hne).
    unfold form_crew. rewrite (set_llm_present key HG Hne).
    destruct (construct W n (NewChatOpenAI _)) as [[] | e0] eqn:H1; simpl;
      [| intros [= <-]; eauto].
    destruct (construct W n NewSearchTool) as [[] | e0] eqn:H2; simpl;
      [| intros [= <-]; eauto].
    destruct (construct W n (NewAgent _)) as [[] | e0] eqn:H3; simpl;
      [| intros [= <-]; eauto].
    destruct (construct W n (NewTask _)) as [[] | e0] eqn:H4; simpl;
      [| intros [= <-]; eauto].
    destruct (construct W n (NewCrew _)) as [[] | e0] eqn:H5; simpl;
      [discriminate | intros [= <-]; eauto].
  - rewrite (form_crew_missing_credential query Hkey). intros [= <-]. by left.
Qed.

(** With a key and constructors that all return, the crew is formed. *)
Lemma form_crew_present (query : string) :
  truthy (GROQ_API_KEY G) = true →
  (∀ call, construct W n call = Ret tt) →
  ∃ crew, form_crew G W n query = Ret crew.
Proof.
  intros Hkey Hall. destruct (truthy_some _ Hkey) as (key & HG & Hne).
  unfold form_crew. rewrite (set_llm_present key HG Hne).
  rewrite (Hall (NewChatOpenAI _)). simpl.
  rewrite (Hall NewSearchTool). simpl.
  rewrite (Hall (NewAgent _)). simpl.
  rewrite (Hall (NewTask _)). simpl.
  rewrite (Hall (NewCrew _)). simpl. eauto.
Qed.

End building.

(** ** One turn of the runner *)

Section runner.

Context (G : Globals) (W : World) (n : nat).

Lemma loop_body_exit (query : string) :
  lower (strip query) ∈ ["exit"; "quit"] →
  loop_body G W n (Ret query) = ([EvInput prompt], Ret Break).
Proof.
  intros H. unfold loop_body, input. simpl. by rewrite decide_True.
Qed.

Lemma loop_body_research (query : string) :
  lower (strip query) ∉ ["exit"; "quit"] →
  loop_body G W n (Ret query)
  = (EvInput prompt :: fst (research G W n query), snd (research G W n query)).
Proof.
  intros H. unfold loop_body, input. simpl. rewrite decide_False by done.
  by destruct (research G W n query).
Qed.

Lemma loop_body_no_input (e : exn) :
  loop_body G W n (Raise e) = ([EvInput prompt], Raise e).
Proof. reflexivity. Qed.

Lemma research_no_crew (query : string) (e : exn) :
  form_crew G W n query = Raise e →
  research G W n query = ([EvPrint researching], Raise e).
Proof. intros H. unfold research. by rewrite H. Qed.

Lemma research_crew (query : string) (crew : Crew) :
  form_crew G W n query = Ret crew →
  research G W n query
  = match kickoff W n crew with
    | Ret result =>
        ([EvPrint researching; EvKickoff n crew;
          EvPrint result_heading; EvPrint result], Ret Continue)
    | Raise e => ([EvPrint researching; EvKickoff n crew], Raise e)
    end.
Proof.
  intros H. unfold research, crew_kickoff. rewrite H. simpl.
  by destruct (kickoff W n crew).
Qed.

Lemma turn_of_ret (delivered : outcome string) (t : list event) (c : control) :
  loop_body G W n delivered = (t, Ret c) →
  turn G W n delivered = (t, Ret c).
Proof. intros H. unfold turn. by rewrite H. Qed.

Lemma turn_of_raise (delivered : outcome string) (t : list event) (e : exn) :
  loop_body G W n delivered = (t, Raise e) →
  turn G W n delivered
  = if is_KeyboardInterrupt (exn_cls e) then (t ++ [EvPrint farewell], Ret Break)
    else if is_Exception (exn_cls e) then (t ++ [EvPrint (error_line e)], Ret Continue)
    else (t, Raise e).
Proof.
  intros H. unfold turn. rewrite H. simpl.
  destruct (is_KeyboardInterrupt (exn_cls e)); [reflexivity |]. simpl.
  by destruct (is_Exception (exn_cls e)).
Qed.

Lemma main_loop_break (delivered : outcome string)
    (stdin : list (outcome string)) (t : list event) :
  turn G W n delivered = (t, Ret Break) →
  main_loop G W n (delivered :: stdin) = (t, Returned).
Proof. intros H. simpl. by rewrite H. Qed.

Lemma main_loop_continue (delivered : outcome string)
    (stdin : list (outcome string)) (t : list event) :
  turn G W n delivered = (t, Ret Continue) →
  main_loop G W n (delivered :: stdin)
  = (t ++ fst (main_loop G W (S n) stdin), snd (main_loop G W (S n) stdin)).
Proof.
  intros H. simpl. rewrite H. by destruct (main_loop G W (S n) stdin).
Qed.

(** Every turn starts by showing the prompt. *)
Lemma turn_prompts (delivered : outcome string) :
  ∃ t, fst (turn G W n delivered) = EvInput prompt :: t.
Proof.
  assert (Hbody : ∃ t, fst (loop_body G W n delivered) = EvInput prompt :: t).
  { unfold loop_body, input. destruct delivered as [query | e]; simpl; [| eauto].
    destruct (decide _); simpl; [eauto |].
    destruct (research G W n query) as [t r]. simpl. eauto. }
  destruct Hbody as [t0 Ht0].
  destruct (loop_body G W n delivered) as [t [c | e]] eqn:Hbody; simpl in Ht0; subst t.
  - rewrite (turn_of_ret _ _ _ Hbody). simpl. eauto.
  - rewrite (turn_of_raise _ _ _ Hbody).
    destruct (is_KeyboardInterrupt _); [simpl; eauto |].
    destruct (is_Exception _); simpl; eauto.
Qed.

Lemma main_loop_interrupt (delivered : outcome string)
    (stdin : list (outcome string))
    (t : list event) (e : exn) :
  loop_body G W n delivered = (t, Raise e) →
  exn_cls e = KeyboardInterrupt →
  main_loop G W n (delivered :: stdin) = (t ++ [EvPrint farewell], Returned).
Proof.
  intros Hbody Hcls. apply main_loop_break.
  rewrite (turn_of_raise _ _ _ Hbody). by rewrite Hcls.
Qed.

Lemma main_loop_error (delivered : outcome string)
    (stdin : list (outcome string))
    (t : list event) (e : exn) :
  loop_body G W n delivered = (t, Raise e) →
  is_Exception (exn_cls e) = true →
  main_loop G W n (delivered :: stdin)
  = ((t ++ [EvPrint (error_line e)]) ++ fst (main_loop G W (S n) stdin),
     snd (main_loop G W (S n) stdin)).
Proof.
  intros Hbody Hcls. apply main_loop_continue.
  rewrite (turn_of_raise _ _ _ Hbody).
  destruct (exn_cls e); try discriminate; reflexivity.
Qed.

End runner.

(** Once called, [main] shows the prompt: the loop is entered. *)
Lemma main_enters_loop (G : Globals) (W : World) (stdin : list (outcome string)) :
  entered_loop (fst (main G W stdin)).
Proof.
  unfold entered_loop, main.
  destruct (main_loop G W 0 stdin) as [t st] eqn:Hloop. simpl.
  apply elem_of_cons; right.
  destruct stdin as [| delivered stdin]; simpl in Hloop.
  - injection Hloop as <- _. apply elem_of_cons; by left.
  - destruct (turn_prompts G W 0 delivered) as [t0 Ht0].
    destruct (turn G W 0 delivered) as [t1 r]. simpl in Ht0. subst t1.
    destruct r as [[|] | e].
    + injection Hloop as <- _. apply elem_of_cons; by left.
    + destruct (main_loop G W 1 stdin). injection Hloop as <- _.
      apply elem_of_cons; by left.
    + injection Hloop as <- _. apply elem_of_cons; by left.
Qed.

(** C8.  A line whose stripped, lower-case form is [exit] or [quit] ends
    the loop, at any turn: the runner returns right after the prompt and no
    crew is started. *)
Theorem exit_keyword_ends_loop (G : Globals) (W : World) (n : nat)
    (query : string) (stdin : list (outcome string)) :
  lower (strip query) ∈ ["exit"; "quit"] →
  main_loop G W n (Ret query :: stdin) = ([EvInput prompt], Returned)
  ∧ main G W (Ret query :: stdin) = ([EvPrint banner; EvInput prompt], Returned)
  ∧ existsb is_kickoff (fst (main_loop G W n (Ret query :: stdin))) = false.
Proof.
  intros Hexit.
  assert (Hloop : ∀ k, main_loop G W k (Ret query :: stdin)
                       = ([EvInput prompt], Returned)).
  { intros k. apply main_loop_break, turn_of_ret. by apply loop_body_exit. }
  split; [apply Hloop |]. split.
  - unfold main. by rewrite Hloop.
  - by rewrite Hloop.
Qed.

(** The four spellings of the specification, and a keyword between two
    no-break spaces. *)
Lemma exit_keyword_ends_loop_witness :
  Forall (λ query,
            main with_keys (answering answered) [Ret query; Ret "fusion energy"]
            = ([EvPrint banner; EvInput prompt], Returned))
    ["exit"; "EXIT"; "quit"; "  Quit  "; NBSP +:+ "exit" +:+ NBSP].
Proof.
  constructor;
    [| constructor; [| constructor; [| constructor; [| constructor;
                                                        [| constructor]]]]].
  - apply (exit_keyword_ends_loop with_keys (answering answered) 0 "exit").
    decide_by_evaluation.
  - apply (exit_keyword_ends_loop with_keys (answering answered) 0 "EXIT").
    decide_by_evaluation.
  - apply (exit_keyword_ends_loop with_keys (answering answered) 0 "quit").
    decide_by_evaluation.
  - apply (exit_keyword_ends_loop with_keys (answering answered) 0 "  Quit  ").
    decide_by_evaluation.
  - apply (exit_keyword_ends_loop with_keys (answering answered) 0
             (NBSP +:+ "exit" +:+ NBSP)).
    decide_by_evaluation.
Defined.

(** C3, as stated, fails: on a line of three spaces the runner starts a
    crew and comes back to the prompt, where an exit keyword makes it
    return at once. *)
Lemma blank_line_is_not_an_exit :
  is_blank "   " = true
  ∧ existsb is_kickoff (fst (main with_keys (answering answered) [Ret "   "])) = true
  ∧ snd (main with_keys (answering answered) [Ret "   "]) = AwaitingInput
  ∧ main with_keys (answering answered) [Ret "exit"]
    = ([EvPrint banner; EvInput prompt], Returned).
Proof. repeat split; vm_compute; reflexivity. Qed.

(** C3, amended.  A blank line does not pass the exit test: the crew is
    formed for the line as it was typed and started, and when it reports
    the result is printed and the loop goes on with the next prompt. *)
Theorem blank_line_is_researched (G : Globals) (W : World) (n : nat)
    (query : string) (crew : Crew) (stdin : list (outcome string)) :
  is_blank query = true →
  form_crew G W n query = Ret crew →
  (∃ t, fst (main_loop G W n (Ret query :: stdin))
        = [EvInput prompt; EvPrint researching; EvKickoff n crew] ++ t)
  ∧ ∀ result,
      kickoff W n crew = Ret result →
      main_loop G W n (Ret query :: stdin)
      = ([EvInput prompt; EvPrint researching; EvKickoff n crew;
          EvPrint result_heading; EvPrint result]
           ++ fst (main_loop G W (S n) stdin),
         snd (main_loop G W (S n) stdin)).
Proof.
  intros Hblank Hcrew.
  pose proof (loop_body_research G W n query (blank_is_no_keyword _ Hblank)) as Hbody.
  rewrite (research_crew _ _ _ _ _ Hcrew) in Hbody.
  destruct (kickoff W n crew) as [result | e] eqn:Hkick; simpl in Hbody.
  - assert (Hloop := main_loop_continue G W n _ stdin _
                       (turn_of_ret _ _ _ _ _ _ Hbody)).
    split; [rewrite Hloop; simpl; eauto |].
    by intros ? [= <-].
  - split; [| discriminate].
    simpl. rewrite (turn_of_raise _ _ _ _ _ _ Hbody).
    destruct (is_KeyboardInterrupt (exn_cls e)); [simpl; eauto |].
    destruct (is_Exception (exn_cls e)); [| simpl; eauto].
    destruct (main_loop G W (S n) stdin). simpl. eauto.
Qed.

(** The empty line, researched. *)
Lemma blank_line_is_researched_witness :
  ∃ crew,
    form_crew with_keys (answering answered) 0 "" = Ret crew
    ∧ main_loop with_keys (answering answered) 0 [Ret ""]
      = ([EvInput prompt; EvPrint researching; EvKickoff 0 crew;
          EvPrint result_heading; EvPrint "report"; EvInput prompt],
         AwaitingInput).
Proof.
  eexists. split; [reflexivity |].
  apply (blank_line_is_researched with_keys (answering answered) 0 "" _ []);
    reflexivity.
Defined.

(** C2, as stated, fails for the search tool: without its credential
    [SearchTool._run] raises nothing that could reach the runner; it returns
    the warning string. *)
Lemma tavily_error_stays_in_tool :
  truthy (TAVILY_API_KEY no_keys) = false
  ∧ SearchTool._run no_keys offline "fusion energy"
    = ([], Ret "⚠️ Search failed. Error: Tavily API key not found")
  ∧ ¬ ∃ t e, SearchTool._run no_keys offline "fusion energy" = (t, Raise e).
Proof.
  split; [reflexivity |]. split; [reflexivity |].
  intros (t & e & H). vm_compute in H. discriminate.
Qed.

(** C2, amended.  Without [GROQ_API_KEY] the error raised by [set_llm]
    leaves [form_crew] uncaught, is printed by the generic handler of the
    runner behind the error marker, and the loop goes on with the next
    prompt.  Without [TAVILY_API_KEY] the error thrown in [SearchTool._run]
    is caught there and comes back as the warning string. *)
Theorem missing_credential_errors (G : Globals) (W : World) :
  (truthy (GROQ_API_KEY G) = false →
   ∀ (n : nat) (query : string) (stdin : list (outcome string)),
     lower (strip query) ∉ ["exit"; "quit"] →
     form_crew G W n query = Raise groq_not_found
     ∧ main_loop G W n (Ret query :: stdin)
       = ([EvInput prompt; EvPrint researching;
           EvPrint (LF +:+ "❌ Error: " +:+ exn_str groq_not_found)]
            ++ fst (main_loop G W (S n) stdin),
          snd (main_loop G W (S n) stdin)))
  ∧ (truthy (TAVILY_API_KEY G) = false →
     ∀ query : string,
       SearchTool._run G W query
       = ([], Ret (SearchTool.failure_message tavily_not_found))).
Proof.
  split.
  - intros Hkey n query stdin Hquery.
    pose proof (form_crew_missing_credential G W n query Hkey) as Hcrew.
    split; [exact Hcrew |].
    pose proof (loop_body_research G W n query Hquery) as Hbody.
    rewrite (research_no_crew _ _ _ _ _ Hcrew) in Hbody. simpl in Hbody.
    by rewrite (main_loop_error _ _ _ _ stdin _ _ Hbody).
  - intros Hkey query.
    rewrite (_run_of_raise _ _ _ _ _ (_run_try_missing_credential G W query Hkey)).
    reflexivity.
Qed.

(** Neither credential: one query, then the prompt again. *)
Lemma missing_credential_errors_witness :
  main_loop no_keys offline 0 [Ret "fusion energy"]
  = ([EvInput prompt; EvPrint researching;
      EvPrint (LF +:+ "❌ Error: Groq API key not found in environment variables");
      EvInput prompt],
     AwaitingInput)
  ∧ SearchTool._run no_keys offline "fusion energy"
    = ([], Ret "⚠️ Search failed. Error: Tavily API key not found").
Proof.
  split.
  - apply (proj1 (missing_credential_errors no_keys offline) eq_refl
             0 "fusion energy" []).
    decide_by_evaluation.
  - apply (proj2 (missing_credential_errors no_keys offline) eq_refl
             "fusion energy").
Defined.

(** C9, as stated, fails: Ctrl+C pressed while the crew runs is caught by
    the runner, which says goodbye and returns. *)
Lemma interrupt_caught_in_flight :
  ∃ crew,
    form_crew with_keys interrupted 0 "fusion energy" = Ret crew
    ∧ kickoff interrupted 0 crew = Raise (Exn KeyboardInterrupt "")
    ∧ main with_keys interrupted [Ret "fusion energy"]
      = ([EvPrint banner; EvInput prompt; EvPrint researching;
          EvKickoff 0 crew; EvPrint farewell],
         Returned).
Proof.
  eexists. split; [reflexivity |]. split; reflexivity.
Qed.

(** C9, amended.  A [KeyboardInterrupt] raised inside the body of the loop
    is caught by the runner, which prints the farewell message and leaves
    the loop: so it is when [input] raises it at the prompt, and so it is
    during the orchestration, when [form_crew] or [crew.kickoff] raises it.
    What was printed before the interrupt stays printed. *)
Theorem interrupt_ends_loop (G : Globals) (W : World) (n : nat)
    (stdin : list (outcome string)) (e : exn) :
  exn_cls e = KeyboardInterrupt →
  main_loop G W n (Raise e :: stdin)
  = ([EvInput prompt; EvPrint farewell], Returned)
  ∧ (∀ query : string,
       lower (strip query) ∉ ["exit"; "quit"] →
       form_crew G W n query = Raise e →
       main_loop G W n (Ret query :: stdin)
       = ([EvInput prompt; EvPrint researching; EvPrint farewell], Returned))
  ∧ (∀ (query : string) (crew : Crew),
       lower (strip query) ∉ ["exit"; "quit"] →
       form_crew G W n query = Ret crew →
       kickoff W n crew = Raise e →
       main_loop G W n (Ret query :: stdin)
       = ([EvInput prompt; EvPrint researching; EvKickoff n crew;
           EvPrint farewell], Returned))
  ∧ (∀ (delivered : outcome string) (t : list event),
       loop_body G W n delivered = (t, Raise e) →
       main_loop G W n (delivered :: stdin)
       = (t ++ [EvPrint farewell], Returned)).
Proof.
  intros Hcls. split; [| split; [| split]].
  - by rewrite (main_loop_interrupt _ _ _ _ stdin _ _ (loop_body_no_input G W n e)).
  - intros query Hquery Hcrew.
    pose proof (loop_body_research G W n query Hquery) as Hbody.
    rewrite (research_no_crew _ _ _ _ _ Hcrew) in Hbody. simpl in Hbody.
    by rewrite (main_loop_interrupt _ _ _ _ stdin _ _ Hbody).
  - intros query crew Hquery Hcrew Hkick.
    pose proof (loop_body_research G W n query Hquery) as Hbody.
    rewrite (research_crew _ _ _ _ _ Hcrew), Hkick in Hbody. simpl in Hbody.
    by rewrite (main_loop_interrupt _ _ _ _ stdin _ _ Hbody).
  - intros delivered t Hbody. exact (main_loop_interrupt _ _ _ _ _ _ e Hbody Hcls).
Qed.

(** Ctrl+C at the second prompt, Ctrl+C while the agent of the first query
    is built, and Ctrl+C while its crew runs. *)
Lemma interrupt_ends_loop_witness :
  main_loop with_keys (answering answered) 1
    [Raise (Exn KeyboardInterrupt ""); Ret "fusion energy"]
  = ([EvInput prompt; EvPrint farewell], Returned)
  ∧ (form_crew with_keys interrupted_building 0 "fusion energy"
     = Raise (Exn KeyboardInterrupt "")
     ∧ main_loop with_keys interrupted_building 0
         [Ret "fusion energy"; Ret "tokamak"]
       = ([EvInput prompt; EvPrint researching; EvPrint farewell], Returned))
  ∧ ∃ crew,
      form_crew with_keys interrupted 0 "fusion energy" = Ret crew
      ∧ main_loop with_keys interrupted 0 [Ret "fusion energy"; Ret "tokamak"]
        = ([EvInput prompt; EvPrint researching; EvKickoff 0 crew;
            EvPrint farewell], Returned).
Proof.
  split; [| split].
  - apply (proj1 (interrupt_ends_loop with_keys (answering answered) 1
                    [Ret "fusion energy"] (Exn KeyboardInterrupt "") eq_refl)).
  - split; [reflexivity |].
    apply (proj1 (proj2 (interrupt_ends_loop with_keys interrupted_building 0
                           [Ret "tokamak"] (Exn KeyboardInterrupt "") eq_refl)));
      [decide_by_evaluation | reflexivity].
  - eexists. split; [reflexivity |].
    apply (proj1 (proj2 (proj2 (interrupt_ends_loop with_keys interrupted 0
                                  [Ret "tokamak"] (Exn KeyboardInterrupt "")
                                  eq_refl))) "fusion energy" _);
      [decide_by_evaluation | reflexivity | reflexivity].
Defined.

(** ** Start-up *)

Lemma run_script_cases (dotenv environ : gmap string string) (W : World)
    (stdin : list (outcome string)) :
  run_script dotenv environ W stdin
  = if groq_present dotenv environ
    then if tavily_present dotenv environ
         then main (module_globals (load_dotenv dotenv environ)) W stdin
         else ([EvPrint tavily_missing], Returned)
    else ([EvPrint groq_missing], Returned).
Proof.
  unfold run_script, groq_present, tavily_present.
  destruct (truthy (getenv _ "GROQ_API_KEY")); [| reflexivity].
  by destruct (truthy (getenv _ "TAVILY_API_KEY")).
Qed.

Lemma error_line_only_no_loop (msg : string) : ¬ entered_loop [EvPrint msg].
Proof.
  unfold entered_loop. intros [H | H]%elem_of_cons; [discriminate |].
  by apply elem_of_nil in H.
Qed.

(** C4.  Whatever the environment and the [.env] file hold, the program
    enters the interactive loop exactly when both credentials are present;
    when one is missing it prints one error message and returns without
    showing the prompt. *)
Theorem loop_entered_iff_both_credentials (dotenv environ : gmap string string)
    (W : World) (stdin : list (outcome string)) :
  (entered_loop (fst (run_script dotenv environ W stdin))
   ↔ groq_present dotenv environ = true ∧ tavily_present dotenv environ = true)
  ∧ run_script dotenv environ W stdin
    = if groq_present dotenv environ && tavily_present dotenv environ
      then main (module_globals (load_dotenv dotenv environ)) W stdin
      else ([EvPrint (if groq_present dotenv environ
                      then tavily_missing else groq_missing)],
            Returned).
Proof.
  rewrite run_script_cases.
  destruct (groq_present dotenv environ), (tavily_present dotenv environ); simpl.
  - split; [| reflexivity]. split; [done |]. intros _. apply main_enters_loop.
  - split; [| reflexivity].
    split; [by intros ?%error_line_only_no_loop | by intros [_ ?]].
  - split; [| reflexivity].
    split; [by intros ?%error_line_only_no_loop | by intros [? _]].
  - split; [| reflexivity].
    split; [by intros ?%error_line_only_no_loop | by intros [? _]].
Qed.

(** The four combinations, with the credentials in the [.env] file. *)
Example four_credential_combinations :
  run_script both_set ∅ (answering answered) [Ret "exit"]
  = ([EvPrint banner; EvInput prompt], Returned)
  ∧ run_script (delete "GROQ_API_KEY" both_set) ∅ (answering answered) [Ret "exit"]
    = ([EvPrint groq_missing], Returned)
  ∧ run_script (delete "TAVILY_API_KEY" both_set) ∅ (answering answered) [Ret "exit"]
    = ([EvPrint tavily_missing], Returned)
  ∧ run_script ∅ ∅ (answering answered) [Ret "exit"]
    = ([EvPrint groq_missing], Returned).
Proof. repeat split; vm_compute; reflexivity. Qed.

(** C10.  With both credentials missing exactly one message is printed, the
    one about [GROQ_API_KEY]; nothing is said about [TAVILY_API_KEY]. *)
Theorem both_missing_reports_groq_only (dotenv environ : gmap string string)
    (W : World) (stdin : list (outcome string)) :
  groq_present dotenv environ = false →
  tavily_present dotenv environ = false →
  run_script dotenv environ W stdin = ([EvPrint groq_missing], Returned)
  ∧ EvPrint tavily_missing ∉ fst (run_script dotenv environ W stdin).
Proof.
  intros Hgroq _. rewrite run_script_cases, Hgroq. split; [reflexivity |].
  simpl. intros [H | H]%elem_of_cons; [discriminate |].
  by apply elem_of_nil in H.
Qed.

(** An empty environment and no [.env] file. *)
Lemma both_missing_reports_groq_only_witness :
  run_script ∅ ∅ offline [Ret "fusion energy"]
  = ([EvPrint "❌ Error: GROQ_API_KEY not found in .env file"], Returned)
  ∧ EvPrint tavily_missing ∉ fst (run_script ∅ ∅ offline [Ret "fusion energy"]).
Proof.
  apply (both_missing_reports_groq_only ∅ ∅ offline [Ret "fusion energy"]);
    reflexivity.
Defined.

(** ** Where the credentials are looked at *)

(** With its credential and a client, the tool sends one search request. *)
Lemma _run_sends_request (G : Globals) (W : World) (query : string)
    (tav : TavClient) :
  truthy (TAVILY_API_KEY G) = true →
  TavilyClient W (TAVILY_API_KEY G) = Ret tav →
  fst (SearchTool._run G W query) = [EvSearch (SearchTool.request query)].
Proof.
  intros Hkey Hclient.
  destruct (SearchTool._run_try G W query) as [t [s | e]] eqn:Htry.
  - rewrite (_run_of_ret _ _ _ _ _ Htry). simpl.
    rewrite (_run_try_search _ _ _ _ Hkey Hclient) in Htry.
    destruct (search tav _) as [result | ?]; [| by injection Htry].
    destruct (SearchTool.links W result); [| by injection Htry].
    destruct (get result _ _); by injection Htry.
  - rewrite (_run_of_raise _ _ _ _ _ Htry).
    rewrite (_run_try_search _ _ _ _ Hkey Hclient) in Htry.
    assert (t = [EvSearch (SearchTool.request query)]) as ->.
    { destruct (search tav _) as [result | ?]; [| by injection Htry].
      destruct (SearchTool.links W result); [| by injection Htry].
      destruct (get result _ _); by injection Htry. }
    by destruct (is_Exception (exn_cls e)).
Qed.

(** C5, as stated, fails: the search tool looks at its credential at each
    call.  Against a service that accepts any key it answers the warning
    without the key and sends the request with it. *)
Lemma search_tool_checks_its_key :
  SearchTool._run no_keys (answering answered) "fusion energy"
  = ([], Ret "⚠️ Search failed. Error: Tavily API key not found")
  ∧ fst (SearchTool._run with_keys (answering answered) "fusion energy")
    = [EvSearch (SearchTool.request "fusion energy")]
  ∧ ¬ ignores_tavily_key (answering answered).
Proof.
  split; [reflexivity |]. split; [reflexivity |].
  intros H. specialize (H no_keys with_keys "fusion energy").
  apply (f_equal fst) in H. vm_compute in H. discriminate.
Qed.

(** C5, amended.  A missing credential is detected at start-up, before the
    loop and before any search or crew is started.  Besides, each component
    looks at its own credential at each use: [set_llm] each time a crew is
    formed, and [SearchTool._run] at each call, where a missing key yields
    the warning before any request is sent and a present key lets the
    request go. *)
Theorem credentials_checked_at_startup_and_at_each_use
    (dotenv environ : gmap string string) (G : Globals) (W : World)
    (stdin : list (outcome string)) (query : string) :
  (groq_present dotenv environ && tavily_present dotenv environ = false →
   ¬ entered_loop (fst (run_script dotenv environ W stdin))
   ∧ existsb is_search (fst (run_script dotenv environ W stdin)) = false
   ∧ existsb is_kickoff (fst (run_script dotenv environ W stdin)) = false)
  ∧ (truthy (GROQ_API_KEY G) = false →
     ∀ n : nat,
       set_llm G W n = Raise groq_not_found
       ∧ form_crew G W n query = Raise groq_not_found)
  ∧ (truthy (TAVILY_API_KEY G) = false →
     SearchTool._run G W query
     = ([], Ret (SearchTool.failure_message tavily_not_found)))
  ∧ (truthy (TAVILY_API_KEY G) = true →
     ∀ tav, TavilyClient W (TAVILY_API_KEY G) = Ret tav →
            fst (SearchTool._run G W query) = [EvSearch (SearchTool.request query)]).
Proof.
  split; [| split; [| split]].
  - intros Hmissing. rewrite run_script_cases.
    destruct (groq_present dotenv environ), (tavily_present dotenv environ);
      try discriminate; (split; [apply error_line_only_no_loop | by split]).
  - intros Hkey n. split.
    + by apply set_llm_missing_credential.
    + by apply form_crew_missing_credential.
  - intros Hkey.
    by rewrite (_run_of_raise _ _ _ _ _ (_run_try_missing_credential G W query Hkey)).
  - intros Hkey tav Hclient. by eapply _run_sends_request.
Qed.

(** Start-up without credentials, and each component without its own. *)
Lemma credentials_checked_at_startup_and_at_each_use_witness :
  (¬ entered_loop (fst (run_script ∅ ∅ (answering answered) [Ret "fusion energy"]))
   ∧ existsb is_search
       (fst (run_script ∅ ∅ (answering answered) [Ret "fusion energy"])) = false
   ∧ existsb is_kickoff
       (fst (run_script ∅ ∅ (answering answered) [Ret "fusion energy"])) = false)
  ∧ form_crew no_keys (answering answered) 0 "fusion energy"
    = Raise groq_not_found
  ∧ SearchTool._run no_keys (answering answered) "fusion energy"
    = ([], Ret "⚠️ Search failed. Error: Tavily API key not found").
Proof.
  pose proof (credentials_checked_at_startup_and_at_each_use
                ∅ ∅ no_keys (answering answered) [Ret "fusion energy"]
                "fusion energy") as (Hstart & Hllm & Htool & _).
  split; [exact (Hstart eq_refl) |].
  split; [exact (proj2 (Hllm eq_refl 0%nat)) | exact (Htool eq_refl)].
Defined.

(** * Further properties *)

(** ** The link list and the outcome of a search *)

Lemma links_from_complete (W : World) (items : list pyval) :
  ∀ (i : nat) (ls : list string),
    SearchTool.links_from W i items = Ret ls → Forall complete items.
Proof.
  induction items as [| item items IH]; intros i ls H; [constructor |].
  apply links_from_cons_inv in H as (l & ls' & Hl & Hrest & ->).
  apply link_is_entry in Hl as (Ht & Hu & _).
  constructor; [by split | by eapply IH].
Qed.

Lemma links_from_of_complete (W : World) (items : list pyval) :
  Forall complete items →
  ∀ i : nat, ∃ ls, SearchTool.links_from W i items = Ret ls.
Proof.
  induction 1 as [| item items [[title Ht] [url Hu]] _ IH]; intros i.
  - by exists [].
  - destruct (IH (S i)) as [ls Hls]. simpl. unfold SearchTool.link.
    rewrite Ht, Hu. simpl. rewrite Hls. simpl. eauto.
Qed.

(** X1.  Fewer than three results give fewer entries, not a failure:
    with one result, or two, each with a title and a URL, the tool returns
    the answer text, the heading and as many entries, numbered [1. ] and
    [2. ]. *)
Theorem fewer_results_give_fewer_entries (G : Globals) (W : World)
    (query : string) (tav : TavClient) (d : gmap string pyval)
    (item1 item2 : pyval) (title1 url1 title2 url2 : pyval) :
  truthy (TAVILY_API_KEY G) = true →
  TavilyClient W (TAVILY_API_KEY G) = Ret tav →
  search tav (SearchTool.request query) = Ret (PyDict d) →
  getitem item1 "title" = Ret title1 → getitem item1 "url" = Ret url1 →
  getitem item2 "title" = Ret title2 → getitem item2 "url" = Ret url2 →
  (d !! "results" = Some (PyList [item1]) →
   SearchTool._run G W query
   = ([EvSearch (SearchTool.request query)],
      Ret (py_str W (default (PyStr "I found these resources:") (d !! "answer"))
           +:+ LF +:+ LF +:+ "Top Links:" +:+ LF
           +:+ "1. " +:+ py_str W title1 +:+ LF +:+ "   " +:+ py_str W url1)))
  ∧ (d !! "results" = Some (PyList [item1; item2]) →
     SearchTool._run G W query
     = ([EvSearch (SearchTool.request query)],
        Ret (py_str W (default (PyStr "I found these resources:") (d !! "answer"))
             +:+ LF +:+ LF +:+ "Top Links:" +:+ LF
             +:+ "1. " +:+ py_str W title1 +:+ LF +:+ "   " +:+ py_str W url1
             +:+ LF +:+ LF
             +:+ "2. " +:+ py_str W title2 +:+ LF +:+ "   " +:+ py_str W url2))).
Proof.
  intros Hk Hc Hs Ht1 Hu1 Ht2 Hu2.
  split; intros Hres; apply _run_of_ret;
    rewrite (_run_try_search _ _ _ _ Hk Hc), Hs, (links_of_dict _ _ _ Hres);
    simpl; unfold SearchTool.link; rewrite ?Ht1, ?Hu1, ?Ht2, ?Hu2;
    simpl; unfold top_links; simpl; by rewrite ?append_assoc, ?append_empty_r.
Qed.

(** Two results found, two shown. *)
Lemma fewer_results_give_fewer_entries_witness :
  SearchTool._run with_keys (answering (PyDict two_results_fields)) "fusion energy"
  = ([EvSearch (SearchTool.request "fusion energy")],
     Ret ("Fusion is advancing." +:+ LF +:+ LF +:+ "Top Links:" +:+ LF
          +:+ "1. ITER" +:+ LF +:+ "   https://iter.org" +:+ LF +:+ LF
          +:+ "2. NIF" +:+ LF +:+ "   https://lasers.llnl.gov")).
Proof.
  apply (proj2 (fewer_results_give_fewer_entries with_keys
                  (answering (PyDict two_results_fields)) "fusion energy"
                  {| search := λ _, Ret (PyDict two_results_fields) |}
                  two_results_fields
                  (sample_item "ITER" "https://iter.org")
                  (sample_item "NIF" "https://lasers.llnl.gov")
                  (PyStr "ITER") (PyStr "https://iter.org")
                  (PyStr "NIF") (PyStr "https://lasers.llnl.gov")
                  eq_refl eq_refl eq_refl
                  ltac:(vm_compute; reflexivity) ltac:(vm_compute; reflexivity)
                  ltac:(vm_compute; reflexivity) ltac:(vm_compute; reflexivity))).
  vm_compute. reflexivity.
Defined.

(** X2.  With the credential, a client and a response whose results are a
    list, the search goes through exactly when each of the first three
    results has a title and a URL; what comes after the third result is
    never looked at. *)
Theorem search_succeeds_iff_first_three_complete (G : Globals) (W : World)
    (query : string) (tav : TavClient) (d : gmap string pyval)
    (items : list pyval) :
  truthy (TAVILY_API_KEY G) = true →
  TavilyClient W (TAVILY_API_KEY G) = Ret tav →
  search tav (SearchTool.request query) = Ret (PyDict d) →
  d !! "results" = Some (PyList items) →
  (∃ s, SearchTool._run_try G W query
        = ([EvSearch (SearchTool.request query)], Ret s))
  ↔ Forall complete (take 3 items).
Proof.
  intros Hk Hc Hs Hres.
  rewrite (_run_try_search _ _ _ _ Hk Hc), Hs, (links_of_dict _ _ _ Hres). simpl.
  split.
  - intros [s H].
    destruct (SearchTool.links_from W 0 (take 3 items)) as [ls | e] eqn:Hls;
      [| discriminate].
    by eapply links_from_complete.
  - intros Hall. destruct (links_from_of_complete W _ Hall 0) as [ls ->]. eauto.
Qed.

(** A fourth result without any field does no harm. *)
Lemma search_succeeds_iff_first_three_complete_witness :
  ∃ s, SearchTool._run_try with_keys
         (answering (PyDict junk_after_third_fields)) "fusion energy"
       = ([EvSearch (SearchTool.request "fusion energy")], Ret s).
Proof.
  apply (search_succeeds_iff_first_three_complete with_keys
           (answering (PyDict junk_after_third_fields)) "fusion energy"
           {| search := λ _, Ret (PyDict junk_after_third_fields) |}
           junk_after_third_fields (take 3 sample_items ++ [PyNone]));
    [reflexivity | reflexivity | reflexivity | vm_compute; reflexivity |].
  repeat (apply List.Forall_cons; [split; eexists; vm_compute; reflexivity |]).
  apply List.Forall_nil.
Defined.

(** X3.  A response with an empty result list is no failure: the answer
    comes back followed by the heading, with nothing under it. *)
Theorem empty_results_give_bare_heading (G : Globals) (W : World)
    (query : string) (tav : TavClient) (d : gmap string pyval) :
  truthy (TAVILY_API_KEY G) = true →
  TavilyClient W (TAVILY_API_KEY G) = Ret tav →
  search tav (SearchTool.request query) = Ret (PyDict d) →
  d !! "results" = Some (PyList []) →
  SearchTool._run G W query
  = ([EvSearch (SearchTool.request query)],
     Ret (py_str W (default (PyStr SearchTool.fallback) (d !! "answer"))
          +:+ LF +:+ LF +:+ "Top Links:" +:+ LF)).
Proof.
  intros Hk Hc Hs Hres. apply _run_of_ret.
  rewrite (_run_try_search _ _ _ _ Hk Hc), Hs, (links_of_dict _ _ _ Hres).
  simpl. unfold top_links. simpl. by rewrite append_empty_r.
Qed.

Lemma empty_results_give_bare_heading_witness :
  SearchTool._run with_keys (answering (PyDict no_results_fields)) "fusion energy"
  = ([EvSearch (SearchTool.request "fusion energy")],
     Ret ("Nothing found." +:+ LF +:+ LF +:+ "Top Links:" +:+ LF)).
Proof.
  apply (empty_results_give_bare_heading with_keys
           (answering (PyDict no_results_fields)) "fusion energy"
           {| search := λ _, Ret (PyDict no_results_fields) |} no_results_fields);
    [reflexivity | reflexivity | reflexivity | vm_compute; reflexivity].
Defined.

(** X4.  One incomplete result among the first three loses all the links:
    when the results before it are complete, the tool answers the warning
    that names the key the item lacks, [title] first, then [url]. *)
Theorem first_missing_field_is_reported (G : Globals) (W : World)
    (query : string) (tav : TavClient) (d : gmap string pyval)
    (good rest : list pyval) (fields : gmap string pyval) (key : string) :
  truthy (TAVILY_API_KEY G) = true →
  TavilyClient W (TAVILY_API_KEY G) = Ret tav →
  search tav (SearchTool.request query) = Ret (PyDict d) →
  d !! "results" = Some (PyList (good ++ PyDict fields :: rest)) →
  (List.length good < 3)%nat →
  Forall complete good →
  (fields !! "title" = None ∧ key = "title")
  ∨ (is_Some (fields !! "title") ∧ fields !! "url" = None ∧ key = "url") →
  SearchTool._run G W query
  = ([EvSearch (SearchTool.request query)],
     Ret ("⚠️ Search failed. Error: '" +:+ key +:+ "'")).
Proof.
  intros Hk Hc Hs Hres Hlen Hgood Hkey.
  assert (Hlink : ∀ i, SearchTool.link W i (PyDict fields) = Raise (KeyError_of key)).
  { intros i. unfold SearchTool.link. simpl.
    destruct Hkey as [[-> ->] | ([title ->] & -> & ->)]; reflexivity. }
  assert (Hfrom : ∀ tail items i,
             Forall complete items →
             SearchTool.links_from W i (items ++ PyDict fields :: tail)
             = Raise (KeyError_of key)).
  { intros tail. induction items as [| item items IH]; intros i Hall; simpl.
    - by rewrite Hlink.
    - apply Forall_cons in Hall as [[[title Ht] [url Hu]] Hall].
      unfold SearchTool.link at 1. rewrite Ht, Hu. simpl.
      by rewrite (IH _ Hall). }
  assert (Htake : ∃ tail, take 3 (good ++ PyDict fields :: rest)
                          = good ++ PyDict fields :: tail).
  { destruct good as [| g1 [| g2 [| g3 good]]]; simpl in Hlen; try lia;
      simpl; eauto. }
  destruct Htake as [tail Htake].
  assert (Htry : SearchTool._run_try G W query
                 = ([EvSearch (SearchTool.request query)], Raise (KeyError_of key))).
  { rewrite (_run_try_search _ _ _ _ Hk Hc), Hs, (links_of_dict _ _ _ Hres).
    by rewrite Htake, (Hfrom tail good 0%nat Hgood). }
  by rewrite (_run_of_raise _ _ _ _ _ Htry).
Qed.

Lemma first_missing_field_is_reported_witness :
  SearchTool._run with_keys (answering (PyDict incomplete_fields)) "fusion energy"
  = ([EvSearch (SearchTool.request "fusion energy")],
     Ret "⚠️ Search failed. Error: 'url'").
Proof.
  apply (first_missing_field_is_reported with_keys
           (answering (PyDict incomplete_fields)) "fusion energy"
           {| search := λ _, Ret (PyDict incomplete_fields) |} incomplete_fields
           [sample_item "ITER" "https://iter.org"]
           [sample_item "JET" "https://euro-fusion.org"]
           (<["title" := PyStr "NIF"]> ∅) "url");
    [reflexivity | reflexivity | reflexivity | vm_compute; reflexivity
    | simpl; lia | | ].
  - apply List.Forall_cons; [split; eexists; vm_compute; reflexivity |].
    apply List.Forall_nil.
  - right. split; [eexists; vm_compute; reflexivity |].
    split; [vm_compute; reflexivity | reflexivity].
Defined.

(** X5.  A response without the [results] key is a failure even when it
    carries an answer: the request was sent, and the tool answers the
    warning that names the key. *)
Theorem missing_results_is_reported (G : Globals) (W : World)
    (query : string) (tav : TavClient) (d : gmap string pyval) :
  truthy (TAVILY_API_KEY G) = true →
  TavilyClient W (TAVILY_API_KEY G) = Ret tav →
  search tav (SearchTool.request query) = Ret (PyDict d) →
  d !! "results" = None →
  SearchTool._run G W query
  = ([EvSearch (SearchTool.request query)],
     Ret "⚠️ Search failed. Error: 'results'").
Proof.
  intros Hk Hc Hs Hres.
  assert (Htry : SearchTool._run_try G W query
                 = ([EvSearch (SearchTool.request query)],
                    Raise (KeyError_of "results"))).
  { rewrite (_run_try_search _ _ _ _ Hk Hc), Hs.
    unfold SearchTool.links. simpl. by rewrite Hres. }
  by rewrite (_run_of_raise _ _ _ _ _ Htry).
Qed.

Lemma missing_results_is_reported_witness :
  SearchTool._run with_keys (answering (PyDict answer_only_fields)) "fusion energy"
  = ([EvSearch (SearchTool.request "fusion energy")],
     Ret "⚠️ Search failed. Error: 'results'").
Proof.
  apply (missing_results_is_reported with_keys
           (answering (PyDict answer_only_fields)) "fusion energy"
           {| search := λ _, Ret (PyDict answer_only_fields) |} answer_only_fields);
    [reflexivity | reflexivity | reflexivity | vm_compute; reflexivity].
Defined.



(** What the body of the [try] raises comes from the missing credential,
    from the client, or from reading the response. *)
Lemma _run_try_raise_inv (G : Globals) (W : World) (query : string)
    (t : list event) (e : exn) :
  SearchTool._run_try G W query = (t, Raise e) →
  is_Exception (exn_cls e) = true
  ∨ TavilyClient W (TAVILY_API_KEY G) = Raise e
  ∨ ∃ tav, TavilyClient W (TAVILY_API_KEY G) = Ret tav
           ∧ search tav (SearchTool.request query) = Raise e.
Proof.
  intros Htry.
  destruct (truthy (TAVILY_API_KEY G)) eqn:Hk.
  - destruct (TavilyClient W (TAVILY_API_KEY G)) as [tav | e0] eqn:Hc.
    + rewrite (_run_try_search _ _ _ _ Hk Hc) in Htry.
      destruct (search tav _) as [result | e0] eqn:Hs.
      * left.
        destruct (SearchTool.links W result) as [ls | e0] eqn:Hl.
        -- destruct result; simpl in Htry; try discriminate;
             by injection Htry as _ <-.
        -- injection Htry as _ <-. by eapply links_raises_Exception.
      * injection Htry as _ <-. right. right. by exists tav.
    + rewrite (_run_try_client_failure _ _ _ _ Hk Hc) in Htry.
      injection Htry as _ <-. by right; left.
  - rewrite (_run_try_missing_credential _ _ _ Hk) in Htry.
    injection Htry as _ <-. by left.
Qed.

(** X7.  As long as the Tavily client fails with instances of [Exception]
    only, the tool always hands a string back: the agent never sees an
    exception from a search. *)
Theorem run_always_answers (G : Globals) (W : World) (query : string) :
  (∀ e, TavilyClient W (TAVILY_API_KEY G) = Raise e →
        is_Exception (exn_cls e) = true) →
  (∀ tav e, TavilyClient W (TAVILY_API_KEY G) = Ret tav →
            search tav (SearchTool.request query) = Raise e →
            is_Exception (exn_cls e) = true) →
  ∃ s, snd (SearchTool._run G W query) = Ret s.
Proof.
  intros Hclient Hsearch.
  destruct (SearchTool._run_try G W query) as [t [s | e]] eqn:Htry.
  - rewrite (_run_of_ret _ _ _ _ _ Htry). simpl. eauto.
  - rewrite (_run_of_raise _ _ _ _ _ Htry).
    assert (Hcls : is_Exception (exn_cls e) = true).
    { destruct (_run_try_raise_inv _ _ _ _ _ Htry) as [H | [H | (tav & Hc & Hs)]];
        [exact H | by apply Hclient | by eapply Hsearch]. }
    rewrite Hcls. simpl. eauto.
Qed.

Lemma run_always_answers_witness :
  ∃ s, snd (SearchTool._run with_keys offline "fusion energy") = Ret s.
Proof.
  apply (run_always_answers with_keys offline "fusion energy").
  - intros e H. discriminate H.
  - intros tav e Hc Hs. injection Hc as <-. simpl in Hs. by injection Hs as <-.
Defined.

(** X8.  A call sends one search request at most, for the query as it was
    given: exactly one when the credential is there and the client could be
    built, none otherwise. *)
Theorem run_sends_at_most_one_request (G : Globals) (W : World) (query : string) :
  fst (SearchTool._run G W query)
  = if truthy (TAVILY_API_KEY G)
    then match TavilyClient W (TAVILY_API_KEY G) with
         | Ret _ => [EvSearch {| sr_query := query;
                                 sr_include_answers := true;
                                 sr_max_results := 5;
                                 sr_search_depth := "advanced" |}]
         | Raise _ => []
         end
    else [].
Proof.
  destruct (truthy (TAVILY_API_KEY G)) eqn:Hk.
  - destruct (TavilyClient W (TAVILY_API_KEY G)) as [tav | e] eqn:Hc.
    + by apply (_run_sends_request _ _ _ tav).
    + rewrite (_run_of_raise _ _ _ _ _ (_run_try_client_failure _ _ _ _ Hk Hc)).
      by destruct (is_Exception (exn_cls e)).
  - by rewrite (_run_of_raise _ _ _ _ _ (_run_try_missing_credential _ _ _ Hk)).
Qed.

(** ** The model handle and the crew *)

(** X9.  Whenever [set_llm] returns a handle, the key was a non-empty
    string, [ChatOpenAI] was called and returned, and the key it was given
    is the configured key without the white space around it, in the sense
    of [str.strip]: no white-space character of Unicode is left at either
    end.  The model, the endpoint, the temperature and the token cap are
    the fixed ones. *)
Theorem set_llm_key_is_stripped (G : Globals) (W : World) (n : nat)
    (handle : ChatOpenAI) :
  set_llm G W n = Ret handle →
  ∃ key,
    GROQ_API_KEY G = Some key ∧ key ≠ ""
    ∧ construct W n (NewChatOpenAI handle) = Ret tt
    ∧ api_key handle = strip key
    ∧ starts_with_space (api_key handle) = false
    ∧ ends_with_space (api_key handle) = false
    ∧ model handle = "groq/llama3-70b-8192"
    ∧ base_url handle = "https://api.groq.com/openai/v1"
    ∧ temperature handle = 5 # 10
    ∧ max_tokens handle = 1024%Z.
Proof.
  intros Hllm.
  destruct (truthy (GROQ_API_KEY G)) eqn:Hkey;
    [| by rewrite (set_llm_missing_credential _ _ _ Hkey) in Hllm].
  destruct (truthy_some _ Hkey) as (key & HG & Hne).
  rewrite (set_llm_present _ _ _ key HG Hne) in Hllm.
  destruct (construct W n (NewChatOpenAI (groq_handle key))) as [[] |] eqn:Hnew;
    [| discriminate].
  injection Hllm as <-. exists key. simpl.
  split; [exact HG |]. split; [exact Hne |]. split; [exact Hnew |].
  split; [reflexivity |].
  split; [apply strip_has_no_surrounding_space |].
  split; [apply strip_has_no_surrounding_space |].
  repeat split.
Qed.

(** A key between two no-break spaces loses them. *)
Lemma set_llm_key_is_stripped_witness :
  ∃ key,
    Some (NBSP +:+ "gsk" +:+ NBSP) = Some key ∧ key ≠ "" ∧ "gsk" = strip key.
Proof.
  destruct (set_llm_key_is_stripped
              {| TAVILY_API_KEY := None;
                 GROQ_API_KEY := Some (NBSP +:+ "gsk" +:+ NBSP) |}
              (answering answered) 0
              {| model := "groq/llama3-70b-8192"; api_key := "gsk";
                 base_url := "https://api.groq.com/openai/v1";
                 temperature := 5 # 10; max_tokens := 1024 |} eq_refl)
    as (key & Hkey & Hne & _ & Hstrip & _).
  exists key. split; [exact Hkey |]. split; [exact Hne | exact Hstrip].
Defined.

(** X10.  A key made of white space only is not taken for missing: the
    presence test lets it through, [ChatOpenAI] is called with an empty
    key, and [set_llm] ends as that call ends; when the client refuses
    the empty key it is the client's error that [set_llm] raises, not the
    error about the missing key. *)
Theorem blank_key_reaches_the_client (G : Globals) (W : World) (n : nat)
    (key : string) :
  GROQ_API_KEY G = Some key →
  key ≠ "" →
  is_blank key = true →
  truthy (GROQ_API_KEY G) = true
  ∧ set_llm G W n
    = match construct W n
              (NewChatOpenAI {| model := "groq/llama3-70b-8192";
                                api_key := "";
                                base_url := "https://api.groq.com/openai/v1";
                                temperature := 5 # 10;
                                max_tokens := 1024 |}) with
      | Ret _ => Ret {| model := "groq/llama3-70b-8192";
                        api_key := "";
                        base_url := "https://api.groq.com/openai/v1";
                        temperature := 5 # 10;
                        max_tokens := 1024 |}
      | Raise e => Raise e
      end.
Proof.
  intros HG Hne Hblank. split.
  - rewrite HG. simpl. by apply String.eqb_neq in Hne as ->.
  - rewrite (set_llm_present _ _ _ key HG Hne). unfold groq_handle.
    by rewrite (strip_blank _ Hblank).
Qed.

(** Three spaces for a key, and a client that refuses the empty key. *)
Lemma blank_key_reaches_the_client_witness :
  truthy (Some "   ") = true
  ∧ set_llm {| TAVILY_API_KEY := Some "tvly-key"; GROQ_API_KEY := Some "   " |}
      refusing_empty_key 0
    = Raise (Exn (OtherException "OpenAIError")
               "The api_key client option must be set").
Proof.
  apply (blank_key_reaches_the_client
           {| TAVILY_API_KEY := Some "tvly-key"; GROQ_API_KEY := Some "   " |}
           refusing_empty_key 0 "   ");
    [reflexivity | discriminate | reflexivity].
Defined.

(** ** What a turn does with a line *)

Section turns.

Context (G : Globals) (W : World) (n : nat).

Lemma main_loop_uncaught (delivered : outcome string)
    (stdin : list (outcome string)) (t : list event) (e : exn) :
  loop_body G W n delivered = (t, Raise e) →
  is_KeyboardInterrupt (exn_cls e) = false →
  is_Exception (exn_cls e) = false →
  main_loop G W n (delivered :: stdin) = (t, Uncaught e).
Proof.
  intros Hbody Hki Hexc. simpl.
  by rewrite (turn_of_raise _ _ _ _ _ _ Hbody), Hki, Hexc.
Qed.

(** The body of the loop on a line that is no exit keyword, by what
    [form_crew] and [kickoff] do. *)
Lemma loop_body_cases (query : string) :
  lower (strip query) ∉ ["exit"; "quit"] →
  loop_body G W n (Ret query)
  = match form_crew G W n query with
    | Ret crew =>
        match kickoff W n crew with
        | Ret result =>
            ([EvInput prompt; EvPrint researching; EvKickoff n crew;
              EvPrint result_heading; EvPrint result], Ret Continue)
        | Raise e =>
            ([EvInput prompt; EvPrint researching; EvKickoff n crew], Raise e)
        end
    | Raise e => ([EvInput prompt; EvPrint researching], Raise e)
    end.
Proof.
  intros Hquery. rewrite (loop_body_research _ _ _ _ Hquery).
  destruct (form_crew G W n query) as [crew | e] eqn:Hcrew.
  - rewrite (research_crew _ _ _ _ _ Hcrew). by destruct (kickoff W n crew).
  - by rewrite (research_no_crew _ _ _ _ _ Hcrew).
Qed.

End turns.

(** X12.  A query that is no exit keyword, once its crew has reported, is
    answered by the result heading and the report, and the runner goes on
    with the rest of the input at the next turn. *)
Theorem research_result_is_printed (G : Globals) (W : World) (n : nat)
    (query : string) (crew : Crew) (result : string)
    (stdin : list (outcome string)) :
  lower (strip query) ∉ ["exit"; "quit"] →
  form_crew G W n query = Ret crew →
  kickoff W n crew = Ret result →
  main_loop G W n (Ret query :: stdin)
  = ([EvInput prompt; EvPrint researching; EvKickoff n crew;
      EvPrint (LF +:+ "✅ Research Result:" +:+ LF); EvPrint result]
       ++ fst (main_loop G W (S n) stdin),
     snd (main_loop G W (S n) stdin)).
Proof.
  intros Hquery Hcrew Hkick.
  pose proof (loop_body_cases G W n query Hquery) as Hbody.
  rewrite Hcrew, Hkick in Hbody.
  by rewrite (main_loop_continue _ _ _ _ stdin _ (turn_of_ret _ _ _ _ _ _ Hbody)).
Qed.

Lemma research_result_is_printed_witness :
  ∃ crew,
    form_crew with_keys (answering answered) 0 "fusion energy" = Ret crew
    ∧ main_loop with_keys (answering answered) 0 [Ret "fusion energy"; Ret "quit"]
      = ([EvInput prompt; EvPrint researching; EvKickoff 0 crew;
          EvPrint (LF +:+ "✅ Research Result:" +:+ LF); EvPrint "report";
          EvInput prompt],
         Returned).
Proof.
  eexists. split; [reflexivity |].
  apply (research_result_is_printed with_keys (answering answered) 0
           "fusion energy" _ "report" [Ret "quit"]);
    [decide_by_evaluation | reflexivity | reflexivity].
Defined.

(** X13.  An exception that derives from [Exception], raised by [input]
    (the end of the input, say) or by the crew, does not end the session:
    its message is printed behind the error marker and the runner goes on
    with the next prompt. *)
Theorem exception_is_reported_and_loop_continues (G : Globals) (W : World)
    (n : nat) (stdin : list (outcome string)) (e : exn) :
  is_Exception (exn_cls e) = true →
  main_loop G W n (Raise e :: stdin)
  = ([EvInput prompt; EvPrint (LF +:+ "❌ Error: " +:+ exn_str e)]
       ++ fst (main_loop G W (S n) stdin),
     snd (main_loop G W (S n) stdin))
  ∧ ∀ (query : string) (crew : Crew),
      lower (strip query) ∉ ["exit"; "quit"] →
      form_crew G W n query = Ret crew →
      kickoff W n crew = Raise e →
      main_loop G W n (Ret query :: stdin)
      = ([EvInput prompt; EvPrint researching; EvKickoff n crew;
          EvPrint (LF +:+ "❌ Error: " +:+ exn_str e)]
           ++ fst (main_loop G W (S n) stdin),
         snd (main_loop G W (S n) stdin)).
Proof.
  intros Hexc. split.
  - by rewrite (main_loop_error _ _ _ _ stdin _ _ (loop_body_no_input G W n e) Hexc).
  - intros query crew Hquery Hcrew Hkick.
    pose proof (loop_body_cases G W n query Hquery) as Hbody.
    rewrite Hcrew, Hkick in Hbody.
    by rewrite (main_loop_error _ _ _ _ stdin _ _ Hbody Hexc).
Qed.

(** The end of the input, then a crew that cannot reach the network. *)
Lemma exception_is_reported_and_loop_continues_witness :
  main_loop with_keys offline 0 [Raise (Exn EOFError "EOF when reading a line")]
  = ([EvInput prompt; EvPrint (LF +:+ "❌ Error: EOF when reading a line");
      EvInput prompt],
     AwaitingInput)
  ∧ ∃ crew,
      form_crew with_keys offline 0 "fusion energy" = Ret crew
      ∧ main_loop with_keys offline 0 [Ret "fusion energy"]
        = ([EvInput prompt; EvPrint researching; EvKickoff 0 crew;
            EvPrint (LF +:+ "❌ Error: connection refused"); EvInput prompt],
           AwaitingInput).
Proof.
  split.
  - apply (proj1 (exception_is_reported_and_loop_continues with_keys offline 0 []
                    (Exn EOFError "EOF when reading a line") eq_refl)).
  - eexists. split; [reflexivity |].
    apply (proj2 (exception_is_reported_and_loop_continues with_keys offline 0 []
                    (Exn (OtherException "ConnectionError") "connection refused")
                    eq_refl) "fusion energy" _);
      [decide_by_evaluation | reflexivity | reflexivity].
Defined.

(** X14.  What derives neither from [Exception] nor from
    [KeyboardInterrupt] ([SystemExit], for one) is not caught: raised at
    the prompt or by the crew it leaves [main] at once, nothing more is
    printed and the rest of the input is not read. *)
Theorem base_exception_leaves_main (G : Globals) (W : World) (n : nat)
    (stdin : list (outcome string)) (e : exn) :
  is_KeyboardInterrupt (exn_cls e) = false →
  is_Exception (exn_cls e) = false →
  main_loop G W n (Raise e :: stdin) = ([EvInput prompt], Uncaught e)
  ∧ ∀ (query : string) (crew : Crew),
      lower (strip query) ∉ ["exit"; "quit"] →
      form_crew G W n query = Ret crew →
      kickoff W n crew = Raise e →
      main_loop G W n (Ret query :: stdin)
      = ([EvInput prompt; EvPrint researching; EvKickoff n crew], Uncaught e).
Proof.
  intros Hki Hexc. split.
  - by apply main_loop_uncaught.
  - intros query crew Hquery Hcrew Hkick.
    pose proof (loop_body_cases G W n query Hquery) as Hbody.
    rewrite Hcrew, Hkick in Hbody.
    by apply main_loop_uncaught.
Qed.

Lemma base_exception_leaves_main_witness :
  ∃ crew,
    form_crew with_keys exiting 0 "fusion energy" = Ret crew
    ∧ main_loop with_keys exiting 0 [Ret "fusion energy"; Ret "tokamak"]
      = ([EvInput prompt; EvPrint researching; EvKickoff 0 crew],
         Uncaught (Exn SystemExit "0")).
Proof.
  eexists. split; [reflexivity |].
  apply (proj2 (base_exception_leaves_main with_keys exiting 0 [Ret "tokamak"]
                  (Exn SystemExit "0") eq_refl eq_refl) "fusion energy" _);
    [decide_by_evaluation | reflexivity | reflexivity].
Defined.

(** ** Whole sessions *)

(** An explicit list of events, searched for a crew that was started. *)
Ltac search_trace H :=
  repeat (apply elem_of_cons in H as [H | H]; [try discriminate H |]);
  try (by apply elem_of_nil in H).

Lemma turn_kickoff_inv (G : Globals) (W : World) (n : nat)
    (delivered : outcome string) (k : nat) (crew : Crew) :
  EvKickoff k crew ∈ fst (turn G W n delivered) →
  k = n
  ∧ ∃ query, delivered = Ret query
             ∧ (lower (strip query) ∉ ["exit"; "quit"])
             ∧ form_crew G W n query = Ret crew.
Proof.
  destruct delivered as [query | e].
  - destruct (decide (lower (strip query) ∈ ["exit"; "quit"])) as [Hexit | Hquery].
    + rewrite (turn_of_ret _ _ _ _ _ _ (loop_body_exit G W n query Hexit)).
      simpl. intros H. search_trace H.
    + pose proof (loop_body_cases G W n query Hquery) as Hbody.
      destruct (form_crew G W n query) as [crew' | e] eqn:Hcrew.
      * destruct (kickoff W n crew') as [result | e] eqn:Hkick.
        -- rewrite (turn_of_ret _ _ _ _ _ _ Hbody). simpl. intros H.
           search_trace H. injection H as -> ->. eauto.
        -- rewrite (turn_of_raise _ _ _ _ _ _ Hbody).
           destruct (is_KeyboardInterrupt (exn_cls e));
             [| destruct (is_Exception (exn_cls e))];
             simpl; intros H; search_trace H; injection H as -> ->; eauto.
      * rewrite (turn_of_raise _ _ _ _ _ _ Hbody).
        destruct (is_KeyboardInterrupt (exn_cls e));
          [| destruct (is_Exception (exn_cls e))];
          simpl; intros H; search_trace H.
  - rewrite (turn_of_raise _ _ _ _ _ _ (loop_body_no_input G W n e)).
    destruct (is_KeyboardInterrupt (exn_cls e));
      [| destruct (is_Exception (exn_cls e))];
      simpl; intros H; search_trace H.
Qed.

Lemma main_loop_kickoff_inv (G : Globals) (W : World)
    (stdin : list (outcome string)) :
  ∀ (n k : nat) (crew : Crew),
    EvKickoff k crew ∈ fst (main_loop G W n stdin) →
    (n ≤ k)%nat
    ∧ ∃ query, stdin !! (k - n)%nat = Some (Ret query)
               ∧ (lower (strip query) ∉ ["exit"; "quit"])
               ∧ form_crew G W k query = Ret crew.
Proof.
  induction stdin as [| delivered stdin IH]; intros n k crew; simpl.
  - intros H. search_trace H.
  - destruct (turn G W n delivered) as [t r] eqn:Hturn.
    assert (Hhere : EvKickoff k crew ∈ t →
              (n ≤ k)%nat
              ∧ ∃ query, (delivered :: stdin) !! (k - n)%nat = Some (Ret query)
                         ∧ (lower (strip query) ∉ ["exit"; "quit"])
                         ∧ form_crew G W k query = Ret crew).
    { intros H. destruct (turn_kickoff_inv G W n delivered k crew) as
        (-> & query & -> & Hquery & Hcrew); [by rewrite Hturn |].
      split; [lia |]. exists query. by rewrite Nat.sub_diag. }
    destruct r as [[|] | e]; simpl; [exact Hhere | | exact Hhere].
    destruct (main_loop G W (S n) stdin) as [t' st] eqn:Hrest. simpl.
    intros [H | H]%elem_of_app; [by apply Hhere |].
    destruct (IH (S n) k crew) as (Hle & query & Hlook & Hquery & Hcrew);
      [by rewrite Hrest |].
    split; [lia |]. exists query.
    replace (k - n)%nat with (S (k - S n)) by lia. by split.
Qed.

(** X15.  Whatever is typed and whatever the crews do, a crew is started
    only for a line that was typed and is no exit keyword, and it is the
    crew formed from that very line at that turn: the crew of turn [k]
    comes from line [k] of the input. *)
Theorem crew_is_started_for_typed_line (G : Globals) (W : World)
    (stdin : list (outcome string)) (k : nat) (crew : Crew) :
  EvKickoff k crew ∈ fst (main G W stdin) →
  ∃ query, stdin !! k = Some (Ret query)
           ∧ (lower (strip query) ∉ ["exit"; "quit"])
           ∧ form_crew G W k query = Ret crew.
Proof.
  unfold main. destruct (main_loop G W 0 stdin) as [t st] eqn:Hloop. simpl.
  intros [H | H]%elem_of_cons; [discriminate |].
  destruct (main_loop_kickoff_inv G W stdin 0 k crew) as (_ & query & Hlook & ?);
    [by rewrite Hloop |].
  exists query. by rewrite Nat.sub_0_r in Hlook.
Qed.

(** X16.  Without the Groq key [main] never starts a crew, whatever is
    typed. *)
Theorem no_crew_without_groq_key (G : Globals) (W : World)
    (stdin : list (outcome string)) (k : nat) (crew : Crew) :
  truthy (GROQ_API_KEY G) = false →
  EvKickoff k crew ∉ fst (main G W stdin).
Proof.
  intros Hkey H. unfold main in H.
  destruct (main_loop G W 0 stdin) as [t st] eqn:Hloop. simpl in H.
  apply elem_of_cons in H as [H | H]; [discriminate |].
  destruct (main_loop_kickoff_inv G W stdin 0 k crew) as (_ & query & _ & _ & Hcrew);
    [by rewrite Hloop |].
  rewrite (form_crew_missing_credential G W k query Hkey) in Hcrew. discriminate.
Qed.

Lemma crew_is_started_for_typed_line_witness :
  ∃ query, [Ret "fusion energy"; Ret "exit"] !! 0%nat = Some (Ret query)
           ∧ (lower (strip query) ∉ ["exit"; "quit"])
           ∧ form_crew with_keys (answering answered) 0 query = Ret fusion_crew.
Proof.
  apply (crew_is_started_for_typed_line with_keys (answering answered)
           [Ret "fusion energy"; Ret "exit"] 0 fusion_crew).
  apply (list_elem_of_lookup_2 _ 3). reflexivity.
Defined.

Lemma no_crew_without_groq_key_witness :
  EvKickoff 0 fusion_crew
  ∉ fst (main no_keys (answering answered) [Ret "fusion energy"; Ret "exit"]).
Proof.
  apply (no_crew_without_groq_key no_keys (answering answered)
           [Ret "fusion energy"; Ret "exit"] 0 fusion_crew).
  reflexivity.
Defined.

Lemma turn_harmless (G : Globals) (W : World) (n : nat)
    (delivered : outcome string) :
  harmless delivered →
  (∀ call e, construct W n call = Raise e → is_Exception (exn_cls e) = true) →
  (∀ crew e, kickoff W n crew = Raise e → is_Exception (exn_cls e) = true) →
  ∃ t, turn G W n delivered = (t, Ret Continue).
Proof.
  intros Hline Hnew Hkick. destruct delivered as [query | e]; simpl in Hline.
  - pose proof (loop_body_cases G W n query Hline) as Hbody.
    destruct (form_crew G W n query) as [crew | e] eqn:Hcrew.
    + destruct (kickoff W n crew) as [result | e] eqn:Hk.
      * rewrite (turn_of_ret _ _ _ _ _ _ Hbody). eauto.
      * rewrite (turn_of_raise _ _ _ _ _ _ Hbody).
        pose proof (Hkick _ _ Hk) as Hexc.
        destruct (exn_cls e); try discriminate; simpl; eauto.
    + rewrite (turn_of_raise _ _ _ _ _ _ Hbody).
      assert (Hexc : is_Exception (exn_cls e) = true).
      { destruct (form_crew_raise_inv _ _ _ _ _ Hcrew) as [[_ ->] | [call Hcall]];
          [reflexivity | by eapply Hnew]. }
      destruct (exn_cls e); try discriminate; simpl; eauto.
  - rewrite (turn_of_raise _ _ _ _ _ _ (loop_body_no_input G W n e)).
    destruct (exn_cls e); try discriminate; simpl; eauto.
Qed.

(** X17.  The session ends in two ways only.  While no line is an exit
    keyword and nothing but instances of [Exception] is raised, by [input],
    by the constructors or by the crews, [main] never returns and nothing
    escapes it: after the last line it is back at the prompt. *)
Theorem main_goes_on_through_failures (G : Globals) (W : World)
    (stdin : list (outcome string)) :
  Forall harmless stdin →
  (∀ n call e, construct W n call = Raise e → is_Exception (exn_cls e) = true) →
  (∀ n crew e, kickoff W n crew = Raise e → is_Exception (exn_cls e) = true) →
  snd (main G W stdin) = AwaitingInput.
Proof.
  intros Hlines Hnew Hkick.
  assert (Hloop : ∀ n, snd (main_loop G W n stdin) = AwaitingInput).
  { induction Hlines as [| delivered stdin Hline _ IH]; intros n; [reflexivity |].
    destruct (turn_harmless G W n delivered Hline (Hnew n) (Hkick n)) as [t Hturn].
    rewrite (main_loop_continue _ _ _ _ stdin _ Hturn). apply IH. }
  unfold main. specialize (Hloop 0%nat).
  by destruct (main_loop G W 0 stdin).
Qed.

(** A blank line, a failing crew and the end of the input, twice. *)
Lemma main_goes_on_through_failures_witness :
  snd (main with_keys offline
         [Ret ""; Ret "fusion energy";
          Raise (Exn EOFError "EOF when reading a line");
          Raise (Exn EOFError "EOF when reading a line")])
  = AwaitingInput.
Proof.
  apply (main_goes_on_through_failures with_keys offline).
  - apply List.Forall_cons; [decide_by_evaluation |].
    apply List.Forall_cons; [decide_by_evaluation |].
    apply List.Forall_cons; [reflexivity |].
    apply List.Forall_cons; [reflexivity |].
    apply List.Forall_nil.
  - intros n call e H. discriminate H.
  - intros n crew e H. by injection H as <-.
Defined.

(** X18.  What is typed after an exit keyword is never read: the session
    is the same as if the input stopped at the keyword, and it does not
    end at the prompt waiting for more. *)
Theorem nothing_is_read_after_exit (G : Globals) (W : World)
    (before after : list (outcome string)) (query : string) :
  lower (strip query) ∈ ["exit"; "quit"] →
  main G W (before ++ Ret query :: after) = main G W (before ++ [Ret query])
  ∧ snd (main G W (before ++ Ret query :: after)) ≠ AwaitingInput.
Proof.
  intros Hexit.
  assert (Hloop : ∀ n rest,
            main_loop G W n (before ++ Ret query :: rest)
            = main_loop G W n (before ++ [Ret query])
            ∧ snd (main_loop G W n (before ++ [Ret query])) ≠ AwaitingInput).
  { intros n rest. revert n.
    induction before as [| delivered before IH]; intros n.
    - simpl app.
      rewrite !(main_loop_break _ _ _ _ _ _
                  (turn_of_ret _ _ _ _ _ _ (loop_body_exit G W n query Hexit))).
      by split.
    - simpl. destruct (turn G W n delivered) as [t [[|] | e]]; [by split | | by split].
      destruct (IH (S n)) as [-> Hst].
      destruct (main_loop G W (S n) (before ++ [Ret query])). by split. }
  destruct (Hloop 0%nat after) as [Heq Hst]. unfold main.
  rewrite Heq. split; [reflexivity |].
  by destruct (main_loop G W 0 (before ++ [Ret query])).
Qed.

(** A keyword followed by a no-break space, then another query. *)
Lemma nothing_is_read_after_exit_witness :
  main with_keys (answering answered)
    ([Ret "fusion energy"] ++ Ret ("Exit" +:+ NBSP) :: [Ret "tokamak"])
  = main with_keys (answering answered)
      ([Ret "fusion energy"] ++ [Ret ("Exit" +:+ NBSP)])
  ∧ snd (main with_keys (answering answered)
           ([Ret "fusion energy"] ++ Ret ("Exit" +:+ NBSP) :: [Ret "tokamak"]))
    ≠ AwaitingInput.
Proof.
  apply (nothing_is_read_after_exit with_keys (answering answered)
           [Ret "fusion energy"] [Ret "tokamak"] ("Exit" +:+ NBSP)).
  decide_by_evaluation.
Defined.

(** ** Exit keywords in any case, with any white space around *)

(** X19.  An exit keyword is recognised in any mix of upper and lower
    case and with any white space before and after it, that of Unicode
    included: such a line ends the session at once. *)
Theorem padded_keyword_ends_session (G : Globals) (W : World)
    (pre word post : string) (stdin : list (outcome string)) :
  is_blank pre = true →
  is_blank post = true →
  lower word ∈ ["exit"; "quit"] →
  main G W (Ret (pre +:+ word +:+ post) :: stdin)
  = ([EvPrint banner; EvInput prompt], Returned).
Proof.
  intros Hpre Hpost Hword.
  assert (Hleadless : leadless word = true ∧ word ≠ "").
  { split.
    - apply leadless_of_lower.
      repeat (apply elem_of_cons in Hword as [-> | Hword]; [reflexivity |]).
      by apply elem_of_nil in Hword.
    - intros ->. simpl in Hword.
      repeat (apply elem_of_cons in Hword as [? | Hword]; [discriminate |]).
      by apply elem_of_nil in Hword. }
  destruct Hleadless as [Hleadless Hne].
  assert (Hexit : lower (strip (pre +:+ word +:+ post)) ∈ ["exit"; "quit"]).
  { by rewrite (strip_padded _ _ _ Hpre Hpost Hleadless Hne). }
  unfold main.
  by rewrite (main_loop_break _ _ _ _ _ _
                (turn_of_ret _ _ _ _ _ _ (loop_body_exit G W 0 _ Hexit))).
Qed.

(** A tab and a no-break space before, an ideographic space after. *)
Lemma padded_keyword_ends_session_witness :
  main with_keys (answering answered)
    (Ret ((utf8 [9] +:+ NBSP) +:+ "QuIt" +:+ utf8 [227; 128; 128])
       :: [Ret "fusion energy"])
  = ([EvPrint banner; EvInput prompt], Returned).
Proof.
  apply (padded_keyword_ends_session with_keys (answering answered)
           (utf8 [9] +:+ NBSP) "QuIt" (utf8 [227; 128; 128])
           [Ret "fusion energy"]);
    [reflexivity | reflexivity | decide_by_evaluation].
Defined.
